(** * TaskManagerApi: the single-page client's authentication flow

    A shallow embedding of the React client of the task manager:

    - [services/api.js]: the axios instance and its four interceptors;
    - [context/AuthContext.jsx]: [AuthProvider] with [login], [register],
      [logout] and the mount effect;
    - [components/auth/Login.jsx], [components/auth/Register.jsx]: the two
      forms, their validation functions and [handleSubmit];
    - [components/layout/ProtectedRoute.jsx].

    The browser (localStorage, the console, [window.location], the network)
    is an explicit [world] record that every operation threads through; a
    rejected promise or a thrown exception is the [Throw] result.  The
    backend is not part of the client: it is an arbitrary function from the
    requests sent so far to the outcome of the last one. *)

From Stdlib Require Import Ascii.
From stdpp Require Import gmap strings list pretty.

Local Open Scope string_scope.
Local Open Scope list_scope.
Set Warnings "-register-all".

(** ** JavaScript values *)

Module JS.

(** The values a JSON body can hold, plus [undefined].  The numbers are
    those written as integers; [JNum n] is what [JSON.parse] makes of the
    integer [n], the double nearest to it. *)
Inductive jsval : Type :=
  | JUndefined
  | JNull
  | JBool (b : bool)
  | JNum (n : Z)
  | JStr (s : string)
  | JArr (items : list jsval)
  | JObj (fields : list (string * jsval)).

(** A string stands for the JavaScript string with the same code units,
    one character each, so that [String.length] is [.length].
    ToBoolean of a string: *)
Definition truthy_str (s : string) : bool :=
  match s with
  | EmptyString => false
  | String _ _ => true
  end.

(** ToBoolean: what [if (v)], [!v] and [a || b] test. *)
Definition truthy (v : jsval) : bool :=
  match v with
  | JUndefined | JNull => false
  | JBool b => b
  | JNum n => negb (n =? 0)%Z
  | JStr s => truthy_str s
  | JArr _ | JObj _ => true
  end.

Definition nullish (v : jsval) : bool :=
  match v with
  | JUndefined | JNull => true
  | _ => false
  end.

(** *** Numbers as strings

    The double nearest to an integer, ties going to the even mantissa;
    [None] is [Infinity], from [2^1024 - 2^970] on. *)
Definition to_double (n : Z) : option Z :=
  let a := Z.abs n in
  if (a <? 2 ^ 53)%Z then Some n
  else
    let e := (Z.log2 a - 52)%Z in
    let q := (a / 2 ^ e)%Z in
    let r := (a mod 2 ^ e)%Z in
    let half := (2 ^ (e - 1))%Z in
    let q :=
      if (half <? r)%Z || ((r =? half)%Z && Z.odd q) then (q + 1)%Z else q in
    let v := (q * 2 ^ e)%Z in
    if (2 ^ 1024 <=? v)%Z then None else Some (Z.sgn n * v)%Z.

Definition reads_as (x v : Z) : bool :=
  match to_double v with
  | Some y => (y =? x)%Z
  | None => false
  end.

(** The digits Number::toString prints for a double [x >= 1] that is an
    integer: the integer of fewest significant digits that reads back as
    [x], the one nearest to [x] if two do. *)
Definition shortest (x : Z) : Z :=
  let d := Z.of_nat (String.length (pretty x)) in
  let try (k : Z) : option Z :=
    let p := (10 ^ (d - k))%Z in
    let lo := (x / p * p)%Z in
    let hi := (lo + p)%Z in
    if (d <? k)%Z then None
    else
      match (0 <? lo)%Z && reads_as x lo, reads_as x hi with
      | true, true =>
          Some (if (x - lo <? hi - x)%Z then lo
                else if (hi - x <? x - lo)%Z then hi
                else if Z.even (lo / p) then lo else hi)
      | true, false => Some lo
      | false, true => Some hi
      | false, false => None
      end in
  default x (head (omap try (Z.of_nat <$> seq 1 17))).

Fixpoint strip_zeros (s : string) : string :=
  match s with
  | EmptyString => EmptyString
  | String c rest =>
      match strip_zeros rest with
      | EmptyString => if Ascii.eqb c "0" then EmptyString
                       else String c EmptyString
      | r => String c r
      end
  end.

(** Number::toString in radix 10: plain digits up to 21 of them, the
    exponent form beyond. *)
Definition number_to_string (n : Z) : string :=
  if (n =? 0)%Z then "0"
  else
    let sign := if (n <? 0)%Z then "-" else "" in
    match to_double (Z.abs n) with
    | None => sign +:+ "Infinity"
    | Some x =>
        let digits := pretty (shortest x) in
        if (String.length digits <=? 21)%nat then sign +:+ digits
        else
          match strip_zeros digits with
          | EmptyString => sign +:+ digits
          | String c EmptyString =>
              sign +:+ String c EmptyString +:+ "e+"
                +:+ pretty (String.length digits - 1)%nat
          | String c rest =>
              sign +:+ String c EmptyString +:+ "." +:+ rest +:+ "e+"
                +:+ pretty (String.length digits - 1)%nat
          end
    end.

(** ToString, as [localStorage.setItem] and [Array.prototype.join] apply
    it: an array joins its items with a comma, an empty, [null] or
    [undefined] item giving the empty string. *)
Fixpoint toString (v : jsval) : string :=
  match v with
  | JUndefined => "undefined"
  | JNull => "null"
  | JBool true => "true"
  | JBool false => "false"
  | JNum n => number_to_string n
  | JStr s => s
  | JArr items =>
      String.concat ","
        (List.map (fun x => if nullish x then "" else toString x) items)
  | JObj _ => "[object Object]"
  end.

(** [items.join(sep)] *)
Definition join (sep : string) (items : list jsval) : string :=
  String.concat sep
    (List.map (fun x => if nullish x then "" else toString x) items).

Definition typeof (v : jsval) : string :=
  match v with
  | JUndefined => "undefined"
  | JNull => "object"
  | JBool _ => "boolean"
  | JNum _ => "number"
  | JStr _ => "string"
  | JArr _ | JObj _ => "object"
  end.

Fixpoint assoc (k : string) (fields : list (string * jsval)) : option jsval :=
  match fields with
  | [] => None
  | (k', v) :: rest => if String.eqb k k' then Some v else assoc k rest
  end.

(** [v.k] for a key [k] that no prototype defines ([access_token],
    [detail], [msg]): [None] is the TypeError of reading a property of
    [null] or [undefined]. *)
Definition prop (v : jsval) (k : string) : option jsval :=
  match v with
  | JUndefined | JNull => None
  | JObj fields => Some (default JUndefined (assoc k fields))
  | _ => Some JUndefined
  end.

(** [v.length] of a value that is neither [null] nor [undefined]. *)
Definition length_of (v : jsval) : jsval :=
  match v with
  | JStr s => JNum (Z.of_nat (String.length s))
  | JArr items => JNum (Z.of_nat (length items))
  | JObj fields => default JUndefined (assoc "length" fields)
  | _ => JUndefined
  end.

(** *** Regular expressions

    The client's four patterns are a character class, tested anywhere
    ([/[A-Z]/]) or over the whole string ([/^[a-zA-Z0-9_-]+$/]).  A class
    is a list of ranges of code units; a single character is the range
    from itself to itself. *)
Definition char_class : Type := list (ascii * ascii).

Definition in_range (c : ascii) (r : ascii * ascii) : bool :=
  (nat_of_ascii (fst r) <=? nat_of_ascii c)%nat
  && (nat_of_ascii c <=? nat_of_ascii (snd r))%nat.

Definition in_class (cls : char_class) (c : ascii) : bool :=
  existsb (in_range c) cls.

(** [/[cls]/.test(s)]: some code unit of [s] is in the class. *)
Fixpoint test_class (cls : char_class) (s : string) : bool :=
  match s with
  | EmptyString => false
  | String c rest => in_class cls c || test_class cls rest
  end.

Fixpoint all_in_class (cls : char_class) (s : string) : bool :=
  match s with
  | EmptyString => true
  | String c rest => in_class cls c && all_in_class cls rest
  end.

(** [/^[cls]+$/.test(s)]: [s] is not empty and all of it is in the class
    (without the [m] flag, [$] is the end of the input). *)
Definition test_class_plus (cls : char_class) (s : string) : bool :=
  truthy_str s && all_in_class cls s.

Definition upper_AZ : char_class := [("A", "Z")]%char.
Definition lower_az : char_class := [("a", "z")]%char.
Definition digit_09 : char_class := [("0", "9")]%char.
Definition word_dash : char_class :=
  [("a", "z"); ("A", "Z"); ("0", "9"); ("_", "_"); ("-", "-")]%char.

End JS.

(** ** The browser: the state every operation runs in *)

Module Browser.
Import JS.

(** What the server sends back ([response.status], [.statusText],
    [.headers], [.data]). *)
Record response : Type := {
  status : Z;
  statusText : string;
  response_headers : gmap string string;
  data : jsval;
}.

(** The [data] of a request. *)
Inductive body : Type :=
  | NoBody
  | JsonBody (v : jsval)
  | URLSearchParams (entries : list (string * string))
  | FormData (entries : list (string * string)).

(** An axios request config, which is also what is sent. *)
Record config : Type := {
  url : string;
  method : string;
  headers : gmap string string;
  config_data : body;
}.

(** What comes of a request that was sent: a response of any status, or
    none at all. *)
Inductive outcome : Type :=
  | Replied (r : response)
  | NoReply.

(** A thrown value: an [Error], with the [response] and [request] that
    axios attaches to its own. *)
Record js_error : Type := {
  error_name : string;
  message : string;
  error_response : option response;
  error_request : option jsval;
}.

Inductive log_arg : Type :=
  | AStr (s : string)
  | AVal (v : jsval)
  | ABody (b : body)
  | AHeaders (h : gmap string string)
  | AErr (e : js_error)
  | AObj (fields : list (string * log_arg)).

Inductive level : Type := Log | Error.

Definition log_entry : Type := level * list log_arg.

(** The [user] state of [AuthProvider]: [null] or [{ token }]. *)
Record user_t : Type := { token : jsval }.

Record world : Type := {
  localStorage : gmap string string;
  location_href : string;
  user : option user_t;
  loading : bool;
  console : list log_entry;
  (** the requests sent, oldest first *)
  network : list config;
  (** the [navigate] calls of the router, oldest first *)
  navigations : list string;
  (** the server: the outcome of the last request of a history *)
  backend : list config -> outcome;
}.

Definition set_localStorage (f : gmap string string -> gmap string string)
    (w : world) : world :=
  {| localStorage := f (localStorage w); location_href := location_href w;
     user := user w; loading := loading w; console := console w;
     network := network w; navigations := navigations w;
     backend := backend w |}.

Definition set_location_href (h : string) (w : world) : world :=
  {| localStorage := localStorage w; location_href := h;
     user := user w; loading := loading w; console := console w;
     network := network w; navigations := navigations w;
     backend := backend w |}.

Definition set_user (u : option user_t) (w : world) : world :=
  {| localStorage := localStorage w; location_href := location_href w;
     user := u; loading := loading w; console := console w;
     network := network w; navigations := navigations w;
     backend := backend w |}.

Definition set_loading (b : bool) (w : world) : world :=
  {| localStorage := localStorage w; location_href := location_href w;
     user := user w; loading := b; console := console w;
     network := network w; navigations := navigations w;
     backend := backend w |}.

Definition add_console (e : log_entry) (w : world) : world :=
  {| localStorage := localStorage w; location_href := location_href w;
     user := user w; loading := loading w; console := console w ++ [e];
     network := network w; navigations := navigations w;
     backend := backend w |}.

Definition add_network (c : config) (w : world) : world :=
  {| localStorage := localStorage w; location_href := location_href w;
     user := user w; loading := loading w; console := console w;
     network := network w ++ [c]; navigations := navigations w;
     backend := backend w |}.

Definition add_navigation (path : string) (w : world) : world :=
  {| localStorage := localStorage w; location_href := location_href w;
     user := user w; loading := loading w; console := console w;
     network := network w; navigations := navigations w ++ [path];
     backend := backend w |}.

(** *** Computations: a state and exception monad over the world *)

Inductive result (A : Type) : Type :=
  | Ok (a : A)
  | Throw (e : js_error).
Arguments Ok {A} a.
Arguments Throw {A} e.

Definition M (A : Type) : Type := world -> result A * world.

Definition ret {A} (a : A) : M A := fun w => (Ok a, w).

Definition throw {A} (e : js_error) : M A := fun w => (Throw e, w).

Definition bind {A B} (m : M A) (k : A -> M B) : M B :=
  fun w =>
    match m w with
    | (Ok a, w') => k a w'
    | (Throw e, w') => (Throw e, w')
    end.

(** [try { m } catch (error) { h error }] *)
Definition try_catch {A} (m : M A) (h : js_error -> M A) : M A :=
  fun w =>
    match m w with
    | (Ok a, w') => (Ok a, w')
    | (Throw e, w') => h e w'
    end.

Definition effect (f : world -> world) : M unit := fun w => (Ok tt, f w).

Declare Scope js_scope.
Delimit Scope js_scope with js.
Notation "'do' x <- m ; k" := (bind m (fun x => k))
  (at level 10, x name, m at level 100, k at level 200) : js_scope.
Notation "m ;; k" := (bind m (fun _ => k))
  (at level 100, k at level 200, right associativity) : js_scope.
Local Open Scope js_scope.

Fixpoint for_each {A} (l : list A) (f : A -> M unit) : M unit :=
  match l with
  | [] => ret tt
  | x :: rest => f x ;; for_each rest f
  end.

Definition console_log (args : list log_arg) : M unit :=
  effect (add_console (Log, args)).

Definition console_error (args : list log_arg) : M unit :=
  effect (add_console (Error, args)).

(** [localStorage.getItem(k)]: the stored string, or [null]. *)
Definition getItem (k : string) : M (option string) :=
  fun w => (Ok (localStorage w !! k), w).

(** [localStorage.setItem(k, v)] stores [String(v)]. *)
Definition setItem (k : string) (v : jsval) : M unit :=
  effect (set_localStorage (insert k (toString v))).

Definition removeItem (k : string) : M unit :=
  effect (set_localStorage (delete k)).

(** [if (token)] for what [getItem] returned. *)
Definition truthy_item (t : option string) : bool :=
  match t with
  | Some s => truthy_str s
  | None => false
  end.

Definition Error_ (msg : string) : js_error :=
  {| error_name := "Error"; message := msg;
     error_response := None; error_request := None |}.

Definition TypeError (msg : string) : js_error :=
  {| error_name := "TypeError"; message := msg;
     error_response := None; error_request := None |}.

(** [v.k], throwing when [v] is [null] or [undefined]. *)
Definition read_prop (v : jsval) (k : string) : M jsval :=
  match prop v k with
  | Some x => ret x
  | None => throw (TypeError ("Cannot read properties of " +:+ toString v))
  end.

End Browser.

(** ** [services/api.js]: the axios instance *)

Module Api.
Import JS Browser.
Local Open Scope js_scope.

(** The headers of [axios.create]. *)
Definition default_headers : gmap string string :=
  {[ "Content-Type" := "application/json" ]}.

(** [interceptors.use(fulfilled, rejected)] *)
Record interceptor (A : Type) : Type := {
  fulfilled : A -> M A;
  rejected : js_error -> M A;
}.
Arguments fulfilled {A} i a w.
Arguments rejected {A} i e w.

Definition typeof_body (b : body) : string :=
  match b with
  | NoBody => "undefined"
  | JsonBody v => typeof v
  | URLSearchParams _ | FormData _ => "object"
  end.

Definition set_header (k v : string) (c : config) : config :=
  {| url := url c; method := method c;
     headers := <[k := v]> (headers c); config_data := config_data c |}.

(** The first request interceptor: logs the request, then adds the token. *)
Definition request_logger : interceptor config := {|
  fulfilled := fun config =>
    console_log [AStr "=== API Request Interceptor ==="] ;;
    console_log [AStr "Request URL:"; AStr (url config)] ;;
    console_log [AStr "Request Method:"; AStr (method config)] ;;
    console_log [AStr "Request Headers:"; AHeaders (headers config)] ;;
    console_log [AStr "Request Data Type:";
                 AStr (typeof_body (config_data config))] ;;
    match config_data config with
    | FormData entries =>
        console_log [AStr "FormData contents:"] ;;
        for_each entries (fun pair =>
          console_log [AStr (fst pair +:+ ": " +:+ snd pair)])
    | other => console_log [AStr "Request Data:"; ABody other]
    end ;;
    do token <- getItem "token" ;
    if truthy_item token then
      let config := set_header "Authorization"
                      ("Bearer " +:+ default "" token) config in
      console_log [AStr "Added Authorization header"] ;;
      ret config
    else ret config;
  rejected := fun error =>
    console_error [AStr "❌ Request Error:"; AErr error] ;;
    throw error;
|}.

Definition is_401 (error : js_error) : bool :=
  match error_response error with
  | Some r => (status r =? 401)%Z
  | None => false
  end.

(** The first response interceptor: logs, and on a 401 drops the token and
    leaves for the login page. *)
Definition response_logger : interceptor response := {|
  fulfilled := fun response =>
    console_log [AStr "=== API Response Interceptor ==="] ;;
    console_log [AStr "Response Status:"; AVal (JNum (status response))] ;;
    console_log [AStr "Response Headers:";
                 AHeaders (response_headers response)] ;;
    console_log [AStr "Response Data:"; AVal (data response)] ;;
    ret response;
  rejected := fun error =>
    console_error [AStr "=== API Response Error ==="] ;;
    match error_response error, error_request error with
    | Some r, _ =>
        console_error [AStr "Error Status:"; AVal (JNum (status r))] ;;
        console_error [AStr "Error Headers:";
                       AHeaders (response_headers r)] ;;
        console_error [AStr "Error Data:"; AVal (data r)]
    | None, Some request =>
        console_error [AStr "No response received:"; AVal request]
    | None, None =>
        console_error [AStr "Error setting up request:";
                       AStr (message error)]
    end ;;
    (if is_401 error then
       removeItem "token" ;;
       effect (set_location_href "/login")
     else ret tt) ;;
    throw error;
|}.

(** The second request interceptor: adds the token. *)
Definition request_auth : interceptor config := {|
  fulfilled := fun config =>
    do token <- getItem "token" ;
    if truthy_item token then
      ret (set_header "Authorization"
             ("Bearer " +:+ default "" token) config)
    else ret config;
  rejected := fun error => throw error;
|}.

(** The second response interceptor: the 401 handling once more. *)
Definition response_auth : interceptor response := {|
  fulfilled := fun response => ret response;
  rejected := fun error =>
    (if is_401 error then
       removeItem "token" ;;
       effect (set_location_href "/login")
     else ret tt) ;;
    throw error;
|}.

(** The interceptors in the order the module registers them. *)
Definition request_interceptors : list (interceptor config) :=
  [request_logger; request_auth].

Definition response_interceptors : list (interceptor response) :=
  [response_logger; response_auth].

(** [promise.then(fulfilled, rejected)] *)
Definition then_ {A} (p : M A) (i : interceptor A) : M A :=
  fun w =>
    match p w with
    | (Ok a, w') => fulfilled i a w'
    | (Throw e, w') => rejected i e w'
    end.

(** axios's default [validateStatus]. *)
Definition validateStatus (st : Z) : bool :=
  (200 <=? st)%Z && (st <? 300)%Z.

(** The request object of the browser's adapter: an [XMLHttpRequest],
    which has no [method], [url] or [headers] property. *)
Definition xhr : jsval := JObj [].

Definition AxiosError (msg : string) (r : option response) : js_error :=
  {| error_name := "AxiosError"; message := msg;
     error_response := r; error_request := Some xhr |}.

(** The adapter: sends the request; a status outside 2xx rejects with the
    response attached, no reply rejects without one. *)
Definition dispatch (c : config) : M response :=
  fun w =>
    let w' := add_network c w in
    match backend w (network w') with
    | Replied r =>
        if validateStatus (status r) then (Ok r, w')
        else (Throw (AxiosError ("Request failed with status code "
                                   +:+ pretty (status r)) (Some r)), w')
    | NoReply => (Throw (AxiosError "Network Error" None), w')
    end.

(** [api.request(config)]: axios puts each request interceptor in front of
    the chain, so the one registered last runs first; the response
    interceptors run in the order of their registration. *)
Definition request (c : config) : M response :=
  let prepared := fold_left then_ (rev request_interceptors) (ret c) in
  fold_left then_ response_interceptors (bind prepared dispatch).

(** [api.post(url, data, { headers })] *)
Definition post (u : string) (d : body) (hs : gmap string string)
    : M response :=
  request {| url := u; method := "post";
             headers := hs ∪ default_headers; config_data := d |}.

End Api.

(** ** [context/AuthContext.jsx]: [AuthProvider] *)

Module AuthContext.
Import JS Browser.
Local Open Scope js_scope.

(** The state a page load starts [AuthProvider] in: [useState(null)] for
    the user, [useState(true)] for [loading]. *)
Definition initial (w : world) : world :=
  set_loading true (set_user None w).

(** The effect that runs once on mount. *)
Definition mount : M unit :=
  do token <- getItem "token" ;
  (if truthy_item token then
     (* TODO in the source: user verification with the backend *)
     effect (set_user (Some {| token := JStr (default "" token) |}))
   else ret tt) ;;
  effect (set_loading false).

Definition form_urlencoded : gmap string string :=
  {[ "Content-Type" := "application/x-www-form-urlencoded" ]}.

Definition login (username password : string) : M bool :=
  try_catch
    (console_log [AStr "=== Login Flow Start ==="] ;;
     console_log [AStr "Creating FormData..."] ;;
     let formData := [("username", username); ("password", password);
                      ("grant_type", "password")] in
     console_log [AStr "FormData contents:"] ;;
     for_each formData (fun pair =>
       console_log [AStr (fst pair +:+ ": " +:+ snd pair)]) ;;
     console_log [AStr "Sending request to:"; AStr "/login"] ;;
     do response <- Api.post "/login" (URLSearchParams formData)
                      form_urlencoded ;
     console_log [AStr "Response received:";
                  AObj [("status", AVal (JNum (status response)));
                        ("statusText", AStr (statusText response));
                        ("headers", AHeaders (response_headers response));
                        ("data", AVal (data response))]] ;;
     (* Check if we have the expected data structure *)
     let access_token :=
       default JUndefined (prop (data response) "access_token") in
     if negb (truthy (data response)) || negb (truthy access_token) then
       console_error [AStr "Invalid login response:";
                      AVal (data response)] ;;
       throw (Error_ "Invalid login response format")
     else
       console_log [AStr "Access token received, length:";
                    AVal (length_of access_token)] ;;
       setItem "token" access_token ;;
       effect (set_user (Some {| token := access_token |})) ;;
       console_log [AStr "=== Login Flow Complete ==="] ;;
       ret true)
    (fun error =>
       console_error [AStr "=== Login Flow Error ==="] ;;
       console_error [AStr "Error type:"; AStr (error_name error)] ;;
       console_error [AStr "Error message:"; AStr (message error)] ;;
       match error_response error with
       | Some r =>
           console_error [AStr "Response status:"; AVal (JNum (status r))] ;;
           console_error [AStr "Response headers:";
                          AHeaders (response_headers r)] ;;
           console_error [AStr "Response data:"; AVal (data r)]
       | None => ret tt
       end ;;
       match error_request error with
       | Some request =>
           console_error
             [AStr "Request config:";
              AObj [("method",
                     AVal (default JUndefined (prop request "method")));
                    ("url", AVal (default JUndefined (prop request "url")));
                    ("headers",
                     AVal (default JUndefined (prop request "headers")))]]
       | None => ret tt
       end ;;
       console_error [AStr "=== End Error Details ==="] ;;
       throw error).

Definition register (username password : string) : M bool :=
  try_catch
    (console_log [AStr "Starting registration request with:";
                  AObj [("username", AStr username)]] ;; (* Don't log password *)
     do response <- Api.post "/register"
                      (JsonBody (JObj [("username", JStr username);
                                       ("password", JStr password)])) ∅ ;
     console_log [AStr "Registration successful"] ;;
     (* After registration, log the user in *)
     try_catch
       (do loginSuccess <- login username password ;
        ret loginSuccess)
       (fun loginError =>
          console_error [AStr "Post-registration login failed:";
                         AErr loginError] ;;
          throw loginError))
    (fun error =>
       console_error
         [AStr "Registration/Login error:";
          AObj [("message", AStr (message error));
                ("response",
                 AVal (from_option data JUndefined (error_response error)));
                ("status",
                 AVal (from_option (fun r => JNum (status r)) JUndefined
                         (error_response error)))]] ;;
       throw error).

Definition logout : M unit :=
  removeItem "token" ;;
  effect (set_user None).

End AuthContext.

(** ** [components/layout/ProtectedRoute.jsx] *)

Module ProtectedRoute.
Import Browser.

Inductive element : Type :=
  | LoadingPlaceholder
  | Navigate (to : string)
  | Children.

(** What the component renders from the context's [user] and [loading]. *)
Definition ProtectedRoute (w : world) : element :=
  if loading w then LoadingPlaceholder
  else match user w with
       | None => Navigate "/login"
       | Some _ => Children
       end.

End ProtectedRoute.

(** ** [components/auth/Login.jsx] *)

Module Login.
Import JS Browser.
Local Open Scope js_scope.

Definition validateUsername (username : string) : string :=
  if negb (truthy_str username) then "Username is required"
  else if (String.length username <? 3)%nat then
    "Username must be at least 3 characters long"
  else if negb (test_class_plus word_dash username) then
    "Username must contain only letters, numbers, underscores, and hyphens"
  else "".

Definition validatePassword (password : string) : string :=
  if negb (truthy_str password) then "Password is required"
  else if (String.length password <? 8)%nat then
    "Password must be at least 8 characters long"
  else if negb (test_class upper_AZ password) then
    "Password must contain at least one uppercase letter"
  else if negb (test_class lower_az password) then
    "Password must contain at least one lowercase letter"
  else if negb (test_class digit_09 password) then
    "Password must contain at least one number"
  else "".

(** The component's state: [formData], [errors] and [isLoading]. *)
Record state : Type := {
  username : string;
  password : string;
  errors_username : string;
  errors_password : string;
  errors_form : jsval;
  isLoading : bool;
}.

Definition set_errors (eu ep : string) (ef : jsval) (s : state) : state :=
  {| username := username s; password := password s;
     errors_username := eu; errors_password := ep; errors_form := ef;
     isLoading := isLoading s |}.

Definition set_errors_form (ef : jsval) (s : state) : state :=
  set_errors (errors_username s) (errors_password s) ef s.

Definition set_isLoading (b : bool) (s : state) : state :=
  {| username := username s; password := password s;
     errors_username := errors_username s;
     errors_password := errors_password s; errors_form := errors_form s;
     isLoading := b |}.

Fixpoint map_m {A B} (f : A -> M B) (l : list A) : M (list B) :=
  match l with
  | [] => ret []
  | x :: rest =>
      do y <- f x ;
      do ys <- map_m f rest ;
      ret (y :: ys)
  end.

(** [detail] of a 422 body as a message, or [fallback] when it is falsy. *)
Definition detail_message (d : jsval) (fallback : jsval) : M jsval :=
  do detail <- read_prop d "detail" ;
  match detail with
  | JArr items =>
      do msgs <- map_m (fun err => read_prop err "msg") items ;
      ret (JStr (join ", " msgs))
  | _ => if truthy detail then ret detail else ret fallback
  end.

(** The [catch] block's choice of [errorMessage]. *)
Definition errorMessage (error : js_error) : M jsval :=
  let errorMessage := JStr "Login failed. Please try again." in
  match error_response error with
  | Some r =>
      if (status r =? 401)%Z then
        ret (JStr "Incorrect username or password")
      else if (status r =? 422)%Z then
        detail_message (data r) errorMessage
      else if (status r =? 500)%Z then
        ret (JStr "Server error. Please try again later.")
      else ret (JStr "An unexpected error occurred. Please try again.")
  | None => ret errorMessage
  end.

(** The form's submit handler; the result pairs the component's new state
    with the world. *)
Definition handleSubmit (s : state) (w : world)
    : result unit * state * world :=
  (* Validate all fields before submission *)
  let usernameError := validateUsername (username s) in
  let passwordError := validatePassword (password s) in
  if truthy_str usernameError || truthy_str passwordError then
    (Ok tt, set_errors usernameError passwordError (JStr "") s, w)
  else
    let s := set_isLoading true s in
    let s := set_errors_form (JStr "") s in
    match AuthContext.login (username s) (password s) w with
    | (Ok result, w) =>
        let w := if result then add_navigation "/tasks" w else w in
        (Ok tt, set_isLoading false s, w)
    | (Throw error, w) =>
        match (console_error [AStr "Login error:"; AErr error] ;;
               errorMessage error) w with
        | (Ok msg, w) =>
            (Ok tt, set_isLoading false (set_errors_form msg s), w)
        | (Throw e, w) => (Throw e, set_isLoading false s, w)
        end
    end.

End Login.

(** ** [components/auth/Register.jsx] *)

Module Register.
Import JS Browser.
Local Open Scope js_scope.

(** The same two functions as in [Login.jsx], written out again there. *)
Definition validateUsername (username : string) : string :=
  if negb (truthy_str username) then "Username is required"
  else if (String.length username <? 3)%nat then
    "Username must be at least 3 characters long"
  else if negb (test_class_plus word_dash username) then
    "Username must contain only letters, numbers, underscores, and hyphens"
  else "".

Definition validatePassword (password : string) : string :=
  if negb (truthy_str password) then "Password is required"
  else if (String.length password <? 8)%nat then
    "Password must be at least 8 characters long"
  else if negb (test_class upper_AZ password) then
    "Password must contain at least one uppercase letter"
  else if negb (test_class lower_az password) then
    "Password must contain at least one lowercase letter"
  else if negb (test_class digit_09 password) then
    "Password must contain at least one number"
  else "".

Record state : Type := {
  username : string;
  password : string;
  confirmPassword : string;
  errors_username : string;
  errors_password : string;
  errors_confirmPassword : string;
  errors_form : jsval;
  isLoading : bool;
}.

Definition set_errors (eu ep ec : string) (ef : jsval) (s : state) : state :=
  {| username := username s; password := password s;
     confirmPassword := confirmPassword s;
     errors_username := eu; errors_password := ep;
     errors_confirmPassword := ec; errors_form := ef;
     isLoading := isLoading s |}.

Definition set_errors_form (ef : jsval) (s : state) : state :=
  set_errors (errors_username s) (errors_password s)
    (errors_confirmPassword s) ef s.

Definition set_isLoading (b : bool) (s : state) : state :=
  {| username := username s; password := password s;
     confirmPassword := confirmPassword s;
     errors_username := errors_username s;
     errors_password := errors_password s;
     errors_confirmPassword := errors_confirmPassword s;
     errors_form := errors_form s; isLoading := b |}.

Definition errorMessage (error : js_error) : M jsval :=
  let errorMessage := JStr "Registration failed. Please try again." in
  match error_response error with
  | Some r =>
      if (status r =? 400)%Z then
        do detail <- read_prop (data r) "detail" ;
        if truthy detail then ret detail
        else ret (JStr "Username already exists")
      else if (status r =? 422)%Z then
        Login.detail_message (data r) errorMessage
      else if (status r =? 500)%Z then
        ret (JStr "Server error. Please try again later.")
      else ret (JStr "An unexpected error occurred. Please try again.")
  | None => ret errorMessage
  end.

Definition handleSubmit (s : state) (w : world)
    : result unit * state * world :=
  let w := add_console (Log, [AStr "inside handleSubmit..."]) w in
  (* Validate all fields before submission *)
  let usernameError := validateUsername (username s) in
  let passwordError := validatePassword (password s) in
  let confirmPasswordError :=
    if negb (String.eqb (password s) (confirmPassword s))
    then "Passwords do not match" else "" in
  if truthy_str usernameError || truthy_str passwordError
     || truthy_str confirmPasswordError then
    (Ok tt,
     set_errors usernameError passwordError confirmPasswordError
       (JStr "") s, w)
  else
    let s := set_isLoading true s in
    let s := set_errors_form (JStr "") s in
    match AuthContext.register (username s) (password s) w with
    | (Ok _, w) =>
        let w :=
          add_console (Log, [AStr "Registration and login successful"]) w in
        let w := add_console (Log, [AStr "inside  if (result) {..."]) w in
        (Ok tt, set_isLoading false s, add_navigation "/tasks" w)
    | (Throw error, w) =>
        match (console_log [AStr "inside Registration error"] ;;
               console_error [AStr "Registration error:"; AErr error] ;;
               errorMessage error) w with
        | (Ok msg, w) =>
            (Ok tt, set_isLoading false (set_errors_form msg s), w)
        | (Throw e, w) => (Throw e, set_isLoading false s, w)
        end
    end.

End Register.

(** ** The format rules, as the specification words them *)

Module Rules.

Definition chars (s : string) : list ascii := String.list_ascii_of_string s.

Definition between (lo hi c : ascii) : Prop :=
  (nat_of_ascii lo <= nat_of_ascii c)%nat
  /\ (nat_of_ascii c <= nat_of_ascii hi)%nat.

Definition uppercase (c : ascii) : Prop := between "A" "Z" c.
Definition lowercase (c : ascii) : Prop := between "a" "z" c.
Definition digit (c : ascii) : Prop := between "0" "9" c.
Definition letter (c : ascii) : Prop := lowercase c \/ uppercase c.

(** At least 8 long, with an uppercase letter, a lowercase letter and a
    digit. *)
Definition password_ok (p : string) : Prop :=
  (8 <= String.length p)%nat
  /\ (exists c, c ∈ chars p /\ uppercase c)
  /\ (exists c, c ∈ chars p /\ lowercase c)
  /\ (exists c, c ∈ chars p /\ digit c).

(** At least 3 long, of letters, digits, underscores and hyphens only. *)
Definition username_ok (u : string) : Prop :=
  (3 <= String.length u)%nat
  /\ forall c, c ∈ chars u ->
       letter c \/ digit c \/ c = "_"%char \/ c = "-"%char.

End Rules.

(** ** What a request leaves behind

    Closed forms of the runs of [Api.request], proved equal to the runs of
    the interceptor chain below. *)

Module Run.
Import JS Browser.

(** The config with the stored token attached, as either request
    interceptor leaves it. *)
Definition with_token (ls : gmap string string) (c : config) : config :=
  match ls !! "token" with
  | Some t =>
      if truthy_str t
      then Api.set_header "Authorization" ("Bearer " +:+ t) c
      else c
  | None => c
  end.

Definition data_log (d : body) : list log_entry :=
  match d with
  | FormData entries =>
      (Log, [AStr "FormData contents:"])
      :: map (fun pair => (Log, [AStr (fst pair +:+ ": " +:+ snd pair)]))
           entries
  | other => [(Log, [AStr "Request Data:"; ABody other])]
  end.

(** The console entries of the request interceptors for the config [c]. *)
Definition request_log (ls : gmap string string) (c : config)
    : list log_entry :=
  [ (Log, [AStr "=== API Request Interceptor ==="]);
    (Log, [AStr "Request URL:"; AStr (url c)]);
    (Log, [AStr "Request Method:"; AStr (method c)]);
    (Log, [AStr "Request Headers:"; AHeaders (headers c)]);
    (Log, [AStr "Request Data Type:";
           AStr (Api.typeof_body (config_data c))]) ]
  ++ data_log (config_data c)
  ++ (if truthy_item (ls !! "token")
      then [(Log, [AStr "Added Authorization header"])] else []).

Definition response_log (r : response) : list log_entry :=
  [ (Log, [AStr "=== API Response Interceptor ==="]);
    (Log, [AStr "Response Status:"; AVal (JNum (status r))]);
    (Log, [AStr "Response Headers:"; AHeaders (response_headers r)]);
    (Log, [AStr "Response Data:"; AVal (data r)]) ].

Definition rejection_log (r : response) : list log_entry :=
  [ (Error, [AStr "=== API Response Error ==="]);
    (Error, [AStr "Error Status:"; AVal (JNum (status r))]);
    (Error, [AStr "Error Headers:"; AHeaders (response_headers r)]);
    (Error, [AStr "Error Data:"; AVal (data r)]) ].

Definition no_reply_log : list log_entry :=
  [ (Error, [AStr "=== API Response Error ==="]);
    (Error, [AStr "No response received:"; AVal Api.xhr]) ].

Definition add_logs (logs : list log_entry) (w : world) : world :=
  {| localStorage := localStorage w; location_href := location_href w;
     user := user w; loading := loading w; console := console w ++ logs;
     network := network w; navigations := navigations w;
     backend := backend w |}.

(** The world after the request [c] went out and [logs] were written. *)
Definition after_request (w : world) (ls : gmap string string)
    (href : string) (logs : list log_entry) (c : config) : world :=
  {| localStorage := ls; location_href := href; user := user w;
     loading := loading w; console := console w ++ logs;
     network := network w ++ [c]; navigations := navigations w;
     backend := backend w |}.

(** The run of [Api.request] once the request interceptors have turned
    the config into [c]. *)
Definition request_outcome (w : world) (c : config)
    : result response * world :=
  let logs := request_log (localStorage w) c in
  let same : list log_entry -> config -> world :=
    after_request w (localStorage w) (location_href w) in
  match backend w (network w ++ [c]) with
  | Replied r =>
      if Api.validateStatus (status r) then
        (Ok r, same (logs ++ response_log r) c)
      else
        (Throw (Api.AxiosError
                  ("Request failed with status code " +:+ pretty (status r))
                  (Some r)),
         if (status r =? 401)%Z
         then after_request w (delete "token" (localStorage w)) "/login"
                (logs ++ rejection_log r) c
         else same (logs ++ rejection_log r) c)
  | NoReply =>
      (Throw (Api.AxiosError "Network Error" None),
       same (logs ++ no_reply_log) c)
  end.

(** The config [login] hands to [api.post]. *)
Definition login_config (username password : string) : config :=
  {| url := "/login"; method := "post";
     headers := AuthContext.form_urlencoded ∪ Api.default_headers;
     config_data := URLSearchParams [("username", username);
                                     ("password", password);
                                     ("grant_type", "password")] |}.

(** What [login] has logged when the request goes out. *)
Definition login_prelude (username password : string) : list log_entry :=
  [ (Log, [AStr "=== Login Flow Start ==="]);
    (Log, [AStr "Creating FormData..."]);
    (Log, [AStr "FormData contents:"]);
    (Log, [AStr ("username: " +:+ username)]);
    (Log, [AStr ("password: " +:+ password)]);
    (Log, [AStr "grant_type: password"]);
    (Log, [AStr "Sending request to:"; AStr "/login"]) ].

(** [response.data.access_token], [undefined] when either is missing. *)
Definition access_token_of (r : response) : jsval :=
  default JUndefined (prop (data r) "access_token").

(** The config [register] hands to [api.post]. *)
Definition register_config (username password : string) : config :=
  {| url := "/register"; method := "post";
     headers := ∅ ∪ Api.default_headers;
     config_data := JsonBody (JObj [("username", JStr username);
                                    ("password", JStr password)]) |}.

(** [register] up to the point where it calls [login]: the world this
    leaves is the one [login] starts in. *)
Definition registration (username password : string) : M response :=
  (console_log [AStr "Starting registration request with:";
                AObj [("username", AStr username)]] ;;
   do response <- Api.post "/register"
                    (JsonBody (JObj [("username", JStr username);
                                     ("password", JStr password)])) ∅ ;
   console_log [AStr "Registration successful"] ;;
   ret response)%js.

End Run.

(** ** Sample worlds and responses *)

Module Examples.
Import JS Browser.

(** A page just loaded, with the given storage and server. *)
Definition fresh (ls : gmap string string) (be : list config -> outcome)
    : world :=
  {| localStorage := ls; location_href := "/"; user := None;
     loading := true; console := []; network := []; navigations := [];
     backend := be |}.

Definition unauthorized : response :=
  {| status := 401; statusText := "Unauthorized"; response_headers := ∅;
     data := JObj [("detail", JStr "Incorrect username or password")] |}.

(** The same status with another body, as a server that told the two
    failures apart would send. *)
Definition no_such_user : response :=
  {| status := 401; statusText := "Unauthorized"; response_headers := ∅;
     data := JObj [("detail", JStr "User bob does not exist")] |}.

Definition token_reply : response :=
  {| status := 200; statusText := "OK"; response_headers := ∅;
     data := JObj [("access_token", JStr "eyJ.abc.def");
                   ("token_type", JStr "bearer")] |}.

Definition created : response :=
  {| status := 200; statusText := "OK"; response_headers := ∅;
     data := JObj [("username", JStr "alice")] |}.

Definition taken : response :=
  {| status := 400; statusText := "Bad Request"; response_headers := ∅;
     data := JObj [("detail", JStr "Username already registered")] |}.

Definition server_error : response :=
  {| status := 500; statusText := "Internal Server Error";
     response_headers := ∅; data := JNull |}.

Definition always (r : response) : list config -> outcome :=
  fun _ => Replied r.

Definition offline : list config -> outcome := fun _ => NoReply.

(** A server that registers anyone and then logs them in. *)
Definition welcoming : list config -> outcome :=
  fun history =>
    match last history with
    | Some c =>
        if String.eqb (url c) "/register" then Replied created
        else Replied token_reply
    | None => NoReply
    end.

Definition get_tasks : config :=
  {| url := "/tasks"; method := "get"; headers := ∅;
     config_data := NoBody |}.

Definition alice : Login.state :=
  {| Login.username := "alice"; Login.password := "Abcdef12";
     Login.errors_username := ""; Login.errors_password := "";
     Login.errors_form := JStr ""; Login.isLoading := false |}.

Definition bob : Login.state :=
  {| Login.username := "bob"; Login.password := "Abcdef12";
     Login.errors_username := ""; Login.errors_password := "";
     Login.errors_form := JStr ""; Login.isLoading := false |}.

Definition short_name : Login.state :=
  {| Login.username := "al"; Login.password := "Abcdef12";
     Login.errors_username := ""; Login.errors_password := "";
     Login.errors_form := JStr ""; Login.isLoading := false |}.

Definition new_alice : Register.state :=
  {| Register.username := "alice"; Register.password := "abcdefgh";
     Register.confirmPassword := "abcdefgh";
     Register.errors_username := ""; Register.errors_password := "";
     Register.errors_confirmPassword := "";
     Register.errors_form := JStr ""; Register.isLoading := false |}.

End Examples.


(** ** [Login.jsx], the rest of the component: [handleChange], [isValid] *)

Module LoginForm.
Import JS Browser.

(** The [name] of the input an event comes from. *)
Inductive input : Type := username_input | password_input.

(** [useState] of the component: empty fields, no errors, not loading. *)
Definition initial : Login.state :=
  {| Login.username := ""; Login.password := "";
     Login.errors_username := ""; Login.errors_password := "";
     Login.errors_form := JStr ""; Login.isLoading := false |}.

(** [setFormData(prev => ({ ...prev, [name]: value }))] *)
Definition set_formData (name : input) (value : string) (s : Login.state)
    : Login.state :=
  {| Login.username :=
       match name with username_input => value | _ => Login.username s end;
     Login.password :=
       match name with password_input => value | _ => Login.password s end;
     Login.errors_username := Login.errors_username s;
     Login.errors_password := Login.errors_password s;
     Login.errors_form := Login.errors_form s;
     Login.isLoading := Login.isLoading s |}.

(** [setErrors(prev => ({ ...prev, [name]: e }))] *)
Definition set_error (name : input) (e : string) (s : Login.state)
    : Login.state :=
  match name with
  | username_input =>
      Login.set_errors e (Login.errors_password s) (Login.errors_form s) s
  | password_input =>
      Login.set_errors (Login.errors_username s) e (Login.errors_form s) s
  end.

(** The [onChange] handler of both inputs; each update works on the state
    the one before it left. *)
Definition handleChange (name : input) (value : string) (s : Login.state)
    : Login.state :=
  let s := set_formData name value s in
  (* Clear field-specific error when user starts typing *)
  let s := Login.set_errors_form (JStr "") (set_error name "" s) in
  (* Real-time validation *)
  let s :=
    match name with
    | username_input =>
        set_error username_input (Login.validateUsername value) s
    | _ => s
    end in
  match name with
  | password_input =>
      set_error password_input (Login.validatePassword value) s
  | _ => s
  end.

(** ToBoolean of [isValid], which is all its two uses look at. *)
Definition isValid (s : Login.state) : bool :=
  negb (truthy_str (Login.errors_username s))
  && negb (truthy_str (Login.errors_password s))
  && truthy_str (Login.username s)
  && truthy_str (Login.password s).

(** [disabled] of the submit button. *)
Definition disabled (s : Login.state) : bool :=
  negb (isValid s) || Login.isLoading s.

(** A field error is that of the field's present value, or the field is
    still empty and was never judged. *)
Definition in_sync (s : Login.state) : Prop :=
  (Login.errors_username s = Login.validateUsername (Login.username s)
   \/ (Login.username s = "" /\ Login.errors_username s = ""))
  /\ (Login.errors_password s = Login.validatePassword (Login.password s)
      \/ (Login.password s = "" /\ Login.errors_password s = "")).

(** [handleSubmit] is an async function.  It runs up to
    [await login(...)] in the event that submits the form, and the
    component is rendered, and takes further events, with the state that
    part set; the rest runs when the promise settles, on the state the
    form is in by then.

    Whether a submission gets as far as the [await]: *)
Definition awaits (s : Login.state) : bool :=
  let usernameError := Login.validateUsername (Login.username s) in
  let passwordError := Login.validatePassword (Login.password s) in
  negb (truthy_str usernameError || truthy_str passwordError).

(** The state up to the [await], or to the [return] before it. *)
Definition submit (s : Login.state) : Login.state :=
  (* Validate all fields before submission *)
  let usernameError := Login.validateUsername (Login.username s) in
  let passwordError := Login.validatePassword (Login.password s) in
  if truthy_str usernameError || truthy_str passwordError then
    Login.set_errors usernameError passwordError (JStr "") s
  else
    let s := Login.set_isLoading true s in
    Login.set_errors_form (JStr "") s. (* Clear previous errors *)

(** The state after the [await]: [setErrors(prev => ...)] with the message
    chosen, if [login] threw and one was chosen, and [setIsLoading(false)]
    of the [finally] block in any case. *)
Definition settle (shown : option jsval) (s : Login.state) : Login.state :=
  Login.set_isLoading false
    match shown with
    | Some errorMessage => Login.set_errors_form errorMessage s
    | None => s
    end.

(** The states the form is rendered in, each with the number of
    submissions that wait for [login]: the user types or submits at any
    moment, also while a submission waits, and a submission that waits
    settles at any moment, with any message or none. *)
Inductive reachable : Login.state -> nat -> Prop :=
  | reach_initial : reachable initial 0
  | reach_change name value s n :
      reachable s n -> reachable (handleChange name value s) n
  | reach_submit s n :
      reachable s n -> reachable (submit s) (if awaits s then S n else n)
  | reach_settle shown s n :
      reachable s (S n) -> reachable (settle shown s) n.

End LoginForm.

(** ** [Register.jsx], the rest of the component *)

Module RegisterForm.
Import JS Browser.

Inductive input : Type :=
  | username_input
  | password_input
  | confirmPassword_input.

Definition initial : Register.state :=
  {| Register.username := ""; Register.password := "";
     Register.confirmPassword := "";
     Register.errors_username := ""; Register.errors_password := "";
     Register.errors_confirmPassword := "";
     Register.errors_form := JStr ""; Register.isLoading := false |}.

(** [setFormData(prev => ({ ...prev, [name]: value }))] *)
Definition set_formData (name : input) (value : string) (s : Register.state)
    : Register.state :=
  {| Register.username :=
       match name with
       | username_input => value | _ => Register.username s
       end;
     Register.password :=
       match name with
       | password_input => value | _ => Register.password s
       end;
     Register.confirmPassword :=
       match name with
       | confirmPassword_input => value | _ => Register.confirmPassword s
       end;
     Register.errors_username := Register.errors_username s;
     Register.errors_password := Register.errors_password s;
     Register.errors_confirmPassword := Register.errors_confirmPassword s;
     Register.errors_form := Register.errors_form s;
     Register.isLoading := Register.isLoading s |}.

(** [setErrors(prev => ({ ...prev, [name]: e }))] *)
Definition set_error (name : input) (e : string) (s : Register.state)
    : Register.state :=
  match name with
  | username_input =>
      Register.set_errors e (Register.errors_password s)
        (Register.errors_confirmPassword s) (Register.errors_form s) s
  | password_input =>
      Register.set_errors (Register.errors_username s) e
        (Register.errors_confirmPassword s) (Register.errors_form s) s
  | confirmPassword_input =>
      Register.set_errors (Register.errors_username s)
        (Register.errors_password s) e (Register.errors_form s) s
  end.

(** [a !== b ? 'Passwords do not match' : ''] *)
Definition mismatch (a b : string) : string :=
  if negb (String.eqb a b) then "Passwords do not match" else "".

(** The [onChange] handler.  [formData] in its body is the state the
    component rendered with, the one the event arrives in. *)
Definition handleChange (name : input) (value : string) (s : Register.state)
    : Register.state :=
  let formData := s in
  let s := set_formData name value s in
  (* Clear field-specific error when user starts typing *)
  let s := Register.set_errors_form (JStr "") (set_error name "" s) in
  (* Real-time validation *)
  let s :=
    match name with
    | username_input =>
        set_error username_input (Register.validateUsername value) s
    | _ => s
    end in
  let s :=
    match name with
    | password_input =>
        let passwordError := Register.validatePassword value in
        set_error confirmPassword_input
          (mismatch value (Register.confirmPassword formData))
          (set_error password_input passwordError s)
    | _ => s
    end in
  match name with
  | confirmPassword_input =>
      set_error confirmPassword_input
        (mismatch value (Register.password formData)) s
  | _ => s
  end.

(** ToBoolean of [isValid]. *)
Definition isValid (s : Register.state) : bool :=
  negb (truthy_str (Register.errors_username s))
  && negb (truthy_str (Register.errors_password s))
  && negb (truthy_str (Register.errors_confirmPassword s))
  && truthy_str (Register.username s)
  && truthy_str (Register.password s)
  && truthy_str (Register.confirmPassword s).

Definition disabled (s : Register.state) : bool :=
  negb (isValid s) || Register.isLoading s.

(** The same for the registration form, whose third error always tells
    whether the two passwords differ. *)
Definition in_sync (s : Register.state) : Prop :=
  (Register.errors_username s
   = Register.validateUsername (Register.username s)
   \/ (Register.username s = "" /\ Register.errors_username s = ""))
  /\ (Register.errors_password s
      = Register.validatePassword (Register.password s)
      \/ (Register.password s = "" /\ Register.errors_password s = ""))
  /\ Register.errors_confirmPassword s
     = mismatch (Register.password s) (Register.confirmPassword s).

(** [handleSubmit] up to [await register(...)], as in the login form.
    Whether a submission gets that far: *)
Definition awaits (s : Register.state) : bool :=
  let usernameError := Register.validateUsername (Register.username s) in
  let passwordError := Register.validatePassword (Register.password s) in
  let confirmPasswordError :=
    mismatch (Register.password s) (Register.confirmPassword s) in
  negb (truthy_str usernameError || truthy_str passwordError
        || truthy_str confirmPasswordError).

(** The state up to the [await], or to the [return] before it. *)
Definition submit (s : Register.state) : Register.state :=
  (* Validate all fields before submission *)
  let usernameError := Register.validateUsername (Register.username s) in
  let passwordError := Register.validatePassword (Register.password s) in
  let confirmPasswordError :=
    mismatch (Register.password s) (Register.confirmPassword s) in
  if truthy_str usernameError || truthy_str passwordError
     || truthy_str confirmPasswordError then
    Register.set_errors usernameError passwordError confirmPasswordError
      (JStr "") s
  else
    let s := Register.set_isLoading true s in
    Register.set_errors_form (JStr "") s.

(** The state after the [await]. *)
Definition settle (shown : option jsval) (s : Register.state)
    : Register.state :=
  Register.set_isLoading false
    match shown with
    | Some errorMessage => Register.set_errors_form errorMessage s
    | None => s
    end.

Inductive reachable : Register.state -> nat -> Prop :=
  | reach_initial : reachable initial 0
  | reach_change name value s n :
      reachable s n -> reachable (handleChange name value s) n
  | reach_submit s n :
      reachable s n -> reachable (submit s) (if awaits s then S n else n)
  | reach_settle shown s n :
      reachable s (S n) -> reachable (settle shown s) n.

End RegisterForm.


(** ** More sample responses *)

Module Samples.
Import JS Browser.

(** A validation error as FastAPI words it. *)
Definition unprocessable : response :=
  {| status := 422; statusText := "Unprocessable Entity";
     response_headers := ∅;
     data := JObj [("detail",
                    JArr [JObj [("loc", JArr [JStr "body"; JStr "username"]);
                                ("msg", JStr "field required");
                                ("type", JStr "value_error.missing")];
                          JObj [("loc", JArr [JStr "body"; JStr "password"]);
                                ("msg", JStr "field required");
                                ("type", JStr "value_error.missing")]])] |}.

Definition teapot : response :=
  {| status := 418; statusText := "I'm a teapot"; response_headers := ∅;
     data := JNull |}.

(** Alice, logged in, with the task page showing. *)
Definition logged_in (be : list config -> outcome) : world :=
  {| localStorage := {[ "token" := "eyJ.abc.def"; "theme" := "dark" ]};
     location_href := "/tasks";
     user := Some {| token := JStr "eyJ.abc.def" |};
     loading := false; console := []; network := []; navigations := [];
     backend := be |}.

(** A registration form filled in so that every check passes. *)
Definition carol : Register.state :=
  {| Register.username := "carol"; Register.password := "Abcdef12";
     Register.confirmPassword := "Abcdef12";
     Register.errors_username := ""; Register.errors_password := "";
     Register.errors_confirmPassword := "";
     Register.errors_form := JStr ""; Register.isLoading := false |}.

End Samples.

(** * Proofs *)

Import JS Browser Run.

(** ** The flows on sample runs *)

Example validate_alice :
  Login.validateUsername "alice" = ""
  /\ Login.validatePassword "Abcdef12" = "".
Proof. split; reflexivity. Qed.

Example validate_weak_password :
  Login.validatePassword "abcdefgh"
  = "Password must contain at least one uppercase letter"
  /\ Login.validatePassword "Abcdef1"
     = "Password must be at least 8 characters long"
  /\ Login.validatePassword "" = "Password is required".
Proof. repeat split; reflexivity. Qed.

Example validate_username_with_space :
  Login.validateUsername "al ice"
  = "Username must contain only letters, numbers, underscores, and hyphens"
  /\ Login.validateUsername "a_b-9" = "".
Proof. split; reflexivity. Qed.

Example numbers_print_as_in_JavaScript :
  toString (JNum 0) = "0" /\ toString (JNum 3600) = "3600"
  /\ toString (JNum (-45)) = "-45"
  /\ toString (JNum (2 ^ 53 + 1)) = "9007199254740992"
  /\ toString (JNum (2 ^ 60)) = "1152921504606847000"
  /\ toString (JNum (10 ^ 21 - 1)) = "1e+21"
  /\ toString (JNum (10 ^ 21)) = "1e+21"
  /\ toString (JNum (2 ^ 70)) = "1.1805916207174113e+21"
  /\ toString (JNum (- 10 ^ 23)) = "-1e+23"
  /\ toString (JNum (2 ^ 1024)) = "Infinity".
Proof. vm_compute. repeat split; reflexivity. Qed.

Example empty_array_is_truthy_and_prints_empty :
  truthy (JArr []) = true /\ toString (JArr []) = ""
  /\ toString (JArr [JNum 1; JNull; JStr "a"]) = "1,,a".
Proof. repeat split; reflexivity. Qed.

Example login_alice_logs_password :
  (Log, [AStr "password: Abcdef12"])
  ∈ console (AuthContext.login "alice" "Abcdef12"
               (Examples.fresh ∅ Examples.welcoming)).2.
Proof. vm_compute. set_solver. Qed.

Example register_alice :
  let run := AuthContext.register "alice" "Abcdef12"
               (Examples.fresh ∅ Examples.welcoming) in
  run.1 = Ok true
  /\ map url (network run.2) = ["/register"; "/login"]
  /\ localStorage run.2 !! "token" = Some "eyJ.abc.def".
Proof. vm_compute. repeat split; reflexivity. Qed.

Example register_taken_name :
  let run := AuthContext.register "alice" "Abcdef12"
               (Examples.fresh ∅ (Examples.always Examples.taken)) in
  (exists e, run.1 = Throw e /\ error_response e = Some Examples.taken)
  /\ map url (network run.2) = ["/register"]
  /\ localStorage run.2 !! "token" = None.
Proof. vm_compute. repeat split; eauto. Qed.

Example stale_token_is_sent_then_dropped :
  let run := Api.request Examples.get_tasks
               (Examples.fresh {[ "token" := "expired" ]}
                  (Examples.always Examples.unauthorized)) in
  (headers <$> network run.2) = [{[ "Authorization" := "Bearer expired" ]}]
  /\ localStorage run.2 !! "token" = None
  /\ location_href run.2 = "/login".
Proof. vm_compute. repeat split; reflexivity. Qed.

(** ** Running the monad *)

Lemma world_ext (w1 w2 : world) :
  localStorage w1 = localStorage w2 -> location_href w1 = location_href w2 ->
  user w1 = user w2 -> loading w1 = loading w2 -> console w1 = console w2 ->
  network w1 = network w2 -> navigations w1 = navigations w2 ->
  backend w1 = backend w2 -> w1 = w2.
Proof. destruct w1, w2; cbn; congruence. Qed.

(** Projections of updated worlds. *)
Ltac fields :=
  cbn [localStorage location_href user loading console network navigations
       backend after_request add_logs add_console add_network
       set_localStorage set_location_href set_user set_loading
       add_navigation fst snd].

Ltac fields_in H :=
  cbn [localStorage location_href user loading console network navigations
       backend after_request add_logs add_console add_network
       set_localStorage set_location_href set_user set_loading
       add_navigation fst snd] in H.

(** One round of unfolding the monad's operations. *)
Ltac run1 :=
  cbn [for_each Api.fulfilled Api.rejected Api.request_logger
       Api.request_auth Api.response_logger Api.response_auth Api.is_401
       Api.AxiosError error_response error_request error_name message
       Error_ TypeError];
  unfold try_catch, bind, ret, throw, effect, console_log, console_error,
    getItem, setItem, removeItem, read_prop, Api.then_;
  fields.

Ltac run := repeat (progress run1).

Ltac run1_in H :=
  cbn [for_each Api.fulfilled Api.rejected Api.request_logger
       Api.request_auth Api.response_logger Api.response_auth Api.is_401
       Api.AxiosError error_response error_request error_name message
       Error_ TypeError] in H;
  unfold try_catch, bind, ret, throw, effect, console_log, console_error,
    getItem, setItem, removeItem, read_prop, Api.then_ in H;
  fields_in H.

Ltac run_in H := repeat (progress (run1_in H)).

Ltac world_eq :=
  run; try apply (f_equal (pair _)); apply world_ext; fields;
  rewrite <- ?app_assoc, ?app_nil_r; try reflexivity.

Lemma with_token_idemp ls c :
  with_token ls (with_token ls c) = with_token ls c.
Proof.
  unfold with_token. destruct (ls !! "token") as [t|]; [|done].
  destruct (truthy_str t); [|done].
  unfold Api.set_header; cbn. by rewrite insert_insert_eq.
Qed.

Lemma for_each_log {A} (f : A -> list log_arg) (l : list A) w :
  for_each l (fun x => console_log (f x)) w
  = (Ok tt, add_logs (map (fun x => (Log, f x)) l) w).
Proof.
  revert w. induction l as [|x l IH]; intros w.
  - unfold for_each. world_eq.
  - cbn [for_each]. unfold bind at 1. unfold console_log at 1.
    unfold effect at 1. rewrite IH. world_eq.
Qed.

Lemma request_auth_run c w :
  Api.fulfilled Api.request_auth c w = (Ok (with_token (localStorage w) c), w).
Proof.
  unfold with_token. run.
  destruct (localStorage w !! "token") as [t|]; [destruct t|]; reflexivity.
Qed.

Lemma data_log_run d w :
  match d with
  | FormData entries =>
      bind (console_log [AStr "FormData contents:"]) (fun _ =>
        for_each entries (fun pair =>
          console_log [AStr (fst pair +:+ ": " +:+ snd pair)]))
  | NoBody => console_log [AStr "Request Data:"; ABody NoBody]
  | JsonBody v => console_log [AStr "Request Data:"; ABody (JsonBody v)]
  | URLSearchParams entries =>
      console_log [AStr "Request Data:"; ABody (URLSearchParams entries)]
  end w = (Ok tt, add_logs (data_log d) w).
Proof.
  destruct d; try world_eq.
  unfold bind at 1. unfold console_log at 1. unfold effect at 1.
  rewrite for_each_log. world_eq.
Qed.

Lemma request_logger_run c w :
  Api.fulfilled Api.request_logger c w
  = (Ok (with_token (localStorage w) c),
     add_logs (request_log (localStorage w) c) w).
Proof.
  cbn [Api.fulfilled Api.request_logger].
  do 5 (unfold bind at 1; unfold console_log at 1; unfold effect at 1).
  unfold bind at 1. rewrite data_log_run.
  unfold with_token, request_log. run.
  destruct (localStorage w !! "token") as [t|]; [destruct t|]; world_eq.
Qed.

(** The request interceptors, last registered first. *)
Lemma prepare_run c w :
  fold_left Api.then_ (rev Api.request_interceptors) (ret c) w
  = (Ok (with_token (localStorage w) c),
     add_logs (request_log (localStorage w) (with_token (localStorage w) c))
       w).
Proof.
  cbn [rev app fold_left Api.request_interceptors].
  unfold Api.then_ at 1 2. unfold ret at 1.
  rewrite request_auth_run, request_logger_run.
  by rewrite with_token_idemp.
Qed.

(** [Api.request] in closed form. *)
Lemma request_run c w :
  Api.request c w = request_outcome w (with_token (localStorage w) c).
Proof.
  unfold Api.request. cbn [fold_left Api.response_interceptors].
  unfold Api.then_ at 1 2. unfold bind at 1.
  rewrite prepare_run.
  generalize (with_token (localStorage w) c). intros c1.
  unfold request_outcome, Api.dispatch. fields.
  destruct (backend w (network w ++ [c1])) as [r|].
  - destruct (Api.validateStatus (status r)) eqn:Hv.
    + world_eq.
    + run. destruct (status r =? 401)%Z eqn:E; run; rewrite ?E; world_eq.
      by rewrite delete_delete_eq.
  - world_eq.
Qed.

(** ** [login] by cases on what the server does *)

Lemma truthy_prop v k :
  truthy (default JUndefined (prop v k)) = true -> truthy v = true.
Proof. by destruct v as [| |[]|n|s|l|fs]. Qed.

Local Opaque request_log response_log rejection_log no_reply_log.

Ltac logs_eq :=
  fields; rewrite <- ?app_assoc; eexists;
  unfold login_prelude; rewrite <- ?app_assoc; cbn [app];
  repeat f_equal; reflexivity.

Lemma login_inv username password w res w' :
  AuthContext.login username password w = (res, w') ->
  let c := with_token (localStorage w) (login_config username password) in
  let pre :=
    login_prelude username password ++ request_log (localStorage w) c in
  network w' = network w ++ [c] /\ loading w' = loading w /\
  navigations w' = navigations w /\ backend w' = backend w /\
  match backend w (network w ++ [c]) with
  | Replied r =>
      if Api.validateStatus (status r) then
        (exists rest,
            console w' = console w ++ pre ++ response_log r ++ rest) /\
        location_href w' = location_href w /\
        if truthy (access_token_of r) then
          res = Ok true /\
          localStorage w'
          = <["token" := toString (access_token_of r)]> (localStorage w) /\
          user w' = Some {| token := access_token_of r |}
        else
          res = Throw (Error_ "Invalid login response format") /\
          localStorage w' = localStorage w /\ user w' = user w
      else
        (exists rest,
            console w' = console w ++ pre ++ rejection_log r ++ rest) /\
        res = Throw (Api.AxiosError
                       ("Request failed with status code "
                          +:+ pretty (status r)) (Some r)) /\
        user w' = user w /\
        if (status r =? 401)%Z then
          localStorage w' = delete "token" (localStorage w) /\
          location_href w' = "/login"
        else localStorage w' = localStorage w /\
             location_href w' = location_href w
  | NoReply =>
      (exists rest, console w' = console w ++ pre ++ no_reply_log ++ rest) /\
      res = Throw (Api.AxiosError "Network Error" None) /\
      user w' = user w /\ localStorage w' = localStorage w /\
      location_href w' = location_href w
  end.
Proof.
  intros H c pre. subst pre c.
  unfold AuthContext.login in H. run_in H.
  unfold Api.post in H. rewrite request_run in H.
  fold (login_config username password) in H.
  unfold request_outcome in H. run_in H.
  generalize dependent
    (with_token (localStorage w) (login_config username password)).
  intros c H.
  destruct (backend w (network w ++ [c])) as [r|].
  - destruct (Api.validateStatus (status r)) eqn:Hv.
    + unfold access_token_of.
      destruct (truthy (default JUndefined (prop (data r) "access_token")))
        eqn:Ht.
      * rewrite (truthy_prop _ _ Ht) in H. cbn [negb orb] in H.
        injection H as <- <-. fields. repeat split; try reflexivity.
        logs_eq.
      * rewrite orb_true_r in H. injection H as <- <-. fields.
        repeat split; try reflexivity. logs_eq.
    + run_in H.
      destruct (status r =? 401)%Z eqn:E; injection H as <- <-; fields;
        repeat split; try reflexivity; logs_eq.
  - run_in H. injection H as <- <-; fields;
      repeat split; try reflexivity; logs_eq.
Qed.

(** ** [register] by cases on what the server does *)

Lemma register_run username password w :
  AuthContext.register username password w
  = let start :=
      add_console (Log, [AStr "Starting registration request with:";
                         AObj [("username", AStr username)]]) w in
    let c := with_token (localStorage w)
               (register_config username password) in
    match request_outcome start c with
    | (Ok _, w1) =>
        match AuthContext.login username password
                (add_console (Log, [AStr "Registration successful"]) w1) with
        | (Ok b, w2) => (Ok b, w2)
        | (Throw e, w2) =>
            (Throw e,
             add_console
               (Error,
                [AStr "Registration/Login error:";
                 AObj [("message", AStr (message e));
                       ("response",
                        AVal (from_option data JUndefined
                                (error_response e)));
                       ("status",
                        AVal (from_option (fun r => JNum (status r))
                                JUndefined (error_response e)))]])
               (add_console
                  (Error, [AStr "Post-registration login failed:"; AErr e])
                  w2))
        end
    | (Throw e, w1) =>
        (Throw e,
         add_console
           (Error,
            [AStr "Registration/Login error:";
             AObj [("message", AStr (message e));
                   ("response",
                    AVal (from_option data JUndefined (error_response e)));
                   ("status",
                    AVal (from_option (fun r => JNum (status r))
                            JUndefined (error_response e)))]])
           w1)
    end.
Proof.
  unfold AuthContext.register.
  unfold try_catch at 1. unfold bind at 1. unfold console_log at 1.
  unfold effect at 1. unfold bind at 1. unfold Api.post.
  rewrite request_run. fold (register_config username password).
  cbn zeta. fields.
  destruct (request_outcome _ _) as [[r|e] w1]; [|reflexivity].
  unfold bind at 1. unfold console_log at 1. unfold effect at 1.
  unfold try_catch at 1. unfold bind at 1.
  destruct (AuthContext.login username password _) as [[b|e] w2];
    reflexivity.
Qed.

(** ** The validation functions against the format rules *)

Lemma in_range_between c lo hi :
  in_range c (lo, hi) = true <-> Rules.between lo hi c.
Proof.
  unfold in_range, Rules.between. cbn [fst snd].
  rewrite andb_true_iff, !Nat.leb_le. reflexivity.
Qed.

Lemma between_same c x : Rules.between x x c <-> c = x.
Proof.
  unfold Rules.between. split.
  - intros [H1 H2]. rewrite <- (ascii_nat_embedding c),
      <- (ascii_nat_embedding x). f_equal. lia.
  - intros ->. lia.
Qed.

Lemma in_class_upper c : in_class upper_AZ c = true <-> Rules.uppercase c.
Proof.
  unfold in_class, upper_AZ. cbn [existsb]. rewrite orb_false_r.
  apply in_range_between.
Qed.

Lemma in_class_lower c : in_class lower_az c = true <-> Rules.lowercase c.
Proof.
  unfold in_class, lower_az. cbn [existsb]. rewrite orb_false_r.
  apply in_range_between.
Qed.

Lemma in_class_digit c : in_class digit_09 c = true <-> Rules.digit c.
Proof.
  unfold in_class, digit_09. cbn [existsb]. rewrite orb_false_r.
  apply in_range_between.
Qed.

Lemma in_class_word c :
  in_class word_dash c = true
  <-> Rules.letter c \/ Rules.digit c \/ c = "_"%char \/ c = "-"%char.
Proof.
  unfold in_class, word_dash. cbn [existsb].
  rewrite !orb_true_iff, !in_range_between, !between_same.
  unfold Rules.letter, Rules.lowercase, Rules.uppercase, Rules.digit.
  intuition discriminate.
Qed.

Lemma test_class_spec cls s :
  test_class cls s = true
  <-> exists c, c ∈ Rules.chars s /\ in_class cls c = true.
Proof.
  unfold Rules.chars. induction s as [|a s IH]; cbn.
  - split; [discriminate|]. intros (c & Hc & _). by apply elem_of_nil in Hc.
  - rewrite orb_true_iff, IH. split.
    + intros [H|(c & Hc & H)].
      * exists a. split; [left|done].
      * exists c. split; [by right|done].
    + intros (c & Hc & H). apply elem_of_cons in Hc as [->|Hc]; eauto.
Qed.

Lemma all_in_class_spec cls s :
  all_in_class cls s = true
  <-> forall c, c ∈ Rules.chars s -> in_class cls c = true.
Proof.
  unfold Rules.chars. induction s as [|a s IH]; cbn.
  - split; [|done]. intros _ c Hc. by apply elem_of_nil in Hc.
  - rewrite andb_true_iff, IH. split.
    + intros [Ha Hs] c Hc. apply elem_of_cons in Hc as [->|Hc]; auto.
    + intros H. split; [apply H; left|].
      intros c Hc. apply H. by right.
Qed.

Lemma truthy_str_length s : truthy_str s = false -> String.length s = 0%nat.
Proof. by destruct s. Qed.

Lemma validatePassword_ok p :
  Login.validatePassword p = "" <-> Rules.password_ok p.
Proof.
  unfold Login.validatePassword, Rules.password_ok.
  destruct (truthy_str p) eqn:Hp; cbn [negb].
  2: { apply truthy_str_length in Hp. rewrite Hp.
       split; [discriminate|]. intros [H _]. lia. }
  destruct (String.length p <? 8)%nat eqn:Hl.
  { apply Nat.ltb_lt in Hl. split; [discriminate|]. intros [H _]. lia. }
  apply Nat.ltb_ge in Hl.
  destruct (test_class upper_AZ p) eqn:Hu; cbn [negb].
  2: { split; [discriminate|]. intros (_ & (c & Hc & H) & _).
       assert (test_class upper_AZ p = true) as Ht; [|congruence].
       apply test_class_spec. exists c. by rewrite in_class_upper. }
  destruct (test_class lower_az p) eqn:Hw; cbn [negb].
  2: { split; [discriminate|]. intros (_ & _ & (c & Hc & H) & _).
       assert (test_class lower_az p = true) as Ht; [|congruence].
       apply test_class_spec. exists c. by rewrite in_class_lower. }
  destruct (test_class digit_09 p) eqn:Hd; cbn [negb].
  2: { split; [discriminate|]. intros (_ & _ & _ & (c & Hc & H)).
       assert (test_class digit_09 p = true) as Ht; [|congruence].
       apply test_class_spec. exists c. by rewrite in_class_digit. }
  split; [intros _|done].
  apply test_class_spec in Hu as (cu & ? & ?%in_class_upper).
  apply test_class_spec in Hw as (cl & ? & ?%in_class_lower).
  apply test_class_spec in Hd as (cd & ? & ?%in_class_digit).
  repeat split; eauto.
Qed.

Lemma validateUsername_ok u :
  Login.validateUsername u = "" <-> Rules.username_ok u.
Proof.
  unfold Login.validateUsername, Rules.username_ok.
  destruct (truthy_str u) eqn:Hp; cbn [negb].
  2: { apply truthy_str_length in Hp. rewrite Hp.
       split; [discriminate|]. intros [H _]. lia. }
  destruct (String.length u <? 3)%nat eqn:Hl.
  { apply Nat.ltb_lt in Hl. split; [discriminate|]. intros [H _]. lia. }
  apply Nat.ltb_ge in Hl.
  unfold test_class_plus. rewrite Hp. cbn [andb].
  destruct (all_in_class word_dash u) eqn:Ha; cbn [negb].
  - split; [intros _|done]. split; [done|].
    intros c Hc. apply in_class_word.
    by apply (proj1 (all_in_class_spec _ _) Ha).
  - split; [discriminate|]. intros [_ H].
    assert (all_in_class word_dash u = true) as Ht; [|congruence].
    apply all_in_class_spec. intros c Hc. apply in_class_word. auto.
Qed.

Lemma truthy_str_empty s : truthy_str s = false <-> s = "".
Proof. destruct s; cbn; split; congruence. Qed.

(** ** [logout] *)

(** C7: [logout] removes the ['token'] entry of localStorage and sets the
    user to [null], and changes nothing else: every other key of the
    storage, the location, the console and the router are as before; no
    request is sent, so the server answers any later request, one that
    carries the old token included, as it would have without the logout. *)
Theorem logout_only_drops_token (w : world) :
  let w' := (AuthContext.logout w).2 in
  (AuthContext.logout w).1 = Ok tt
  /\ localStorage w' = delete "token" (localStorage w)
  /\ localStorage w' !! "token" = None
  /\ (forall k, k <> "token" -> localStorage w' !! k = localStorage w !! k)
  /\ user w' = None
  /\ network w' = network w
  /\ (forall c, backend w' (network w' ++ [c])
                = backend w (network w ++ [c]))
  /\ location_href w' = location_href w
  /\ loading w' = loading w
  /\ console w' = console w
  /\ navigations w' = navigations w.
Proof.
  unfold AuthContext.logout. run. repeat split; try reflexivity.
  - apply lookup_delete_eq.
  - intros k Hk. by apply lookup_delete_ne.
Qed.

(** ** The interceptors *)

Local Transparent request_log response_log rejection_log no_reply_log.

Lemma with_token_frame ls c :
  url (with_token ls c) = url c /\ method (with_token ls c) = method c
  /\ config_data (with_token ls c) = config_data c.
Proof.
  unfold with_token. destruct (ls !! "token") as [t|]; [|done].
  by destruct (truthy_str t).
Qed.

Lemma with_token_headers ls c :
  headers (with_token ls c)
  = match ls !! "token" with
    | Some t =>
        if truthy_str t
        then <["Authorization" := "Bearer " +:+ t]> (headers c)
        else headers c
    | None => headers c
    end.
Proof.
  unfold with_token. destruct (ls !! "token") as [t|]; [|done].
  by destruct (truthy_str t).
Qed.

Lemma truthy_str_true s : s <> "" -> truthy_str s = true.
Proof. by destruct s. Qed.

Lemma request_network c w :
  network (Api.request c w).2 = network w ++ [with_token (localStorage w) c].
Proof.
  rewrite request_run. unfold request_outcome.
  destruct (backend w _) as [r|]; [|done].
  destruct (Api.validateStatus (status r)); [done|].
  by destruct (status r =? 401)%Z.
Qed.

(** C5, as the code has it: every request that goes through the client is
    sent with its url, method and data as given; when a token that is not
    the empty string is stored under ['token'], the request sent carries
    [Authorization: Bearer <token>]; when nothing is stored, or the empty
    string, the client adds no header. *)
Theorem request_carries_stored_token (c : config) (w : world) :
  exists sent,
    network (Api.request c w).2 = network w ++ [sent]
    /\ url sent = url c /\ method sent = method c
    /\ config_data sent = config_data c
    /\ (forall t, localStorage w !! "token" = Some t -> t <> "" ->
          headers sent = <["Authorization" := "Bearer " +:+ t]> (headers c))
    /\ (localStorage w !! "token" = None
        \/ localStorage w !! "token" = Some "" ->
        headers sent = headers c).
Proof.
  exists (with_token (localStorage w) c).
  split; [apply request_network|].
  destruct (with_token_frame (localStorage w) c) as (-> & -> & ->).
  repeat split; rewrite with_token_headers.
  - intros t -> Hne. by rewrite truthy_str_true.
  - by intros [->| ->].
Qed.

Lemma request_carries_stored_token_witness :
  exists sent,
    network (Api.request Examples.get_tasks
               (Examples.fresh {[ "token" := "eyJ.abc.def" ]}
                  Examples.offline)).2 = [sent]
    /\ headers sent !! "Authorization" = Some "Bearer eyJ.abc.def".
Proof.
  destruct (request_carries_stored_token Examples.get_tasks
              (Examples.fresh {[ "token" := "eyJ.abc.def" ]}
                 Examples.offline))
    as (sent & Hn & _ & _ & _ & Hh & _).
  exists sent. split; [exact Hn|].
  rewrite (Hh "eyJ.abc.def"); [reflexivity|reflexivity|discriminate].
Defined.

(** C5 as stated fails: with the empty string stored under ['token'], a
    request goes out with no Authorization header. *)
Lemma empty_token_sends_no_header :
  ~ (forall (c : config) (w : world) (t : string),
       localStorage w !! "token" = Some t ->
       exists sent,
         last (network (Api.request c w).2) = Some sent
         /\ headers sent !! "Authorization" = Some ("Bearer " +:+ t)).
Proof.
  intros H.
  destruct (H Examples.get_tasks
              (Examples.fresh {[ "token" := "" ]} Examples.offline) "")
    as (sent & Hs & Hh); [reflexivity|].
  vm_compute in Hs. injection Hs as <-. vm_compute in Hh. discriminate.
Qed.

(** C9: when the server answers a request with status 401, the token is
    removed from localStorage, the browser is sent to [/login], and the
    caller still gets the rejection, with the response attached; an error
    response of any other status is rejected the same way and leaves the
    stored token and the location as they were. *)
Theorem unauthorized_response_drops_token (c : config) (w : world)
    (r : response) :
  let run := Api.request c w in
  backend w (network run.2) = Replied r ->
  (status r = 401%Z ->
   (exists e, run.1 = Throw e /\ error_response e = Some r)
   /\ localStorage run.2 = delete "token" (localStorage w)
   /\ localStorage run.2 !! "token" = None
   /\ location_href run.2 = "/login")
  /\ (Api.validateStatus (status r) = false -> status r <> 401%Z ->
      (exists e, run.1 = Throw e /\ error_response e = Some r)
      /\ localStorage run.2 = localStorage w
      /\ location_href run.2 = location_href w).
Proof.
  cbn zeta. rewrite request_network. rewrite request_run.
  unfold request_outcome. intros ->. split.
  - intros E. rewrite E. cbn [Api.validateStatus Z.leb Z.ltb Z.compare
      Pos.compare Pos.compare_cont andb Z.eqb Pos.eqb fst snd].
    fields. repeat split; eauto. apply lookup_delete_eq.
  - intros -> E. apply Z.eqb_neq in E. rewrite E. cbn [fst snd]. fields.
    repeat split; eauto.
Qed.

Lemma unauthorized_response_drops_token_witness :
  let w := Examples.fresh {[ "token" := "expired"; "theme" := "dark" ]}
             (Examples.always Examples.unauthorized) in
  let run := Api.request Examples.get_tasks w in
  (exists e, run.1 = Throw e /\ error_response e = Some Examples.unauthorized)
  /\ localStorage run.2 = delete "token" (localStorage w)
  /\ localStorage run.2 !! "token" = None
  /\ location_href run.2 = "/login".
Proof.
  apply (unauthorized_response_drops_token Examples.get_tasks
           (Examples.fresh {[ "token" := "expired"; "theme" := "dark" ]}
              (Examples.always Examples.unauthorized))
           Examples.unauthorized); reflexivity.
Defined.

(** ** The mount effect and [ProtectedRoute] *)

Lemma mount_run w :
  AuthContext.mount w
  = (Ok tt,
     set_loading false
       (match localStorage w !! "token" with
        | Some t =>
            if truthy_str t then set_user (Some {| token := JStr t |}) w
            else w
        | None => w
        end)).
Proof.
  unfold AuthContext.mount. run.
  destruct (localStorage w !! "token") as [t|]; [destruct t|]; reflexivity.
Qed.

(** C8, as the code has it: on mount, a stored token that is not the empty
    string makes the user [{ token }] with no request sent, whatever the
    server would say of that token, and [ProtectedRoute] then renders its
    children.  Once a request is answered with status 401 the token is
    gone from the storage, and the page that loads next sends the visitor
    to the login page. *)
Theorem mount_trusts_stored_token (w : world) (t : string) :
  localStorage w !! "token" = Some t -> t <> "" ->
  let w' := (AuthContext.mount w).2 in
  user w' = Some {| token := JStr t |}
  /\ loading w' = false
  /\ network w' = network w
  /\ localStorage w' = localStorage w
  /\ ProtectedRoute.ProtectedRoute w' = ProtectedRoute.Children
  /\ (forall c r,
        let after := (Api.request c w').2 in
        backend w' (network after) = Replied r -> status r = 401%Z ->
        localStorage after !! "token" = None
        /\ ProtectedRoute.ProtectedRoute
             (AuthContext.mount (AuthContext.initial after)).2
           = ProtectedRoute.Navigate "/login").
Proof.
  intros Ht Hne. cbn zeta. rewrite mount_run, Ht.
  destruct t as [|a t]; [done|]. cbn [truthy_str snd].
  unfold ProtectedRoute.ProtectedRoute at 1. fields.
  do 5 (split; [done|]).
  intros c r. rewrite request_network. rewrite request_run.
  unfold request_outcome. fields. intros -> E. rewrite E.
  cbn [Api.validateStatus Z.leb Z.ltb Z.compare Pos.compare
       Pos.compare_cont andb Z.eqb Pos.eqb snd].
  fields. split; [apply lookup_delete_eq|].
  rewrite mount_run. unfold AuthContext.initial. fields.
  rewrite lookup_delete_eq. unfold ProtectedRoute.ProtectedRoute. fields.
  done.
Qed.

Lemma mount_trusts_stored_token_witness :
  let w := Examples.fresh {[ "token" := "forged" ]}
             (Examples.always Examples.unauthorized) in
  let w' := (AuthContext.mount w).2 in
  user w' = Some {| token := JStr "forged" |}
  /\ loading w' = false
  /\ network w' = network w
  /\ localStorage w' = localStorage w
  /\ ProtectedRoute.ProtectedRoute w' = ProtectedRoute.Children
  /\ (forall c r,
        let after := (Api.request c w').2 in
        backend w' (network after) = Replied r -> status r = 401%Z ->
        localStorage after !! "token" = None
        /\ ProtectedRoute.ProtectedRoute
             (AuthContext.mount (AuthContext.initial after)).2
           = ProtectedRoute.Navigate "/login").
Proof.
  apply (mount_trusts_stored_token
           (Examples.fresh {[ "token" := "forged" ]}
              (Examples.always Examples.unauthorized)) "forged").
  - reflexivity.
  - discriminate.
Defined.

(** C8 as stated fails: with the empty string stored under ['token'] the
    mount effect sets no user, and [ProtectedRoute] sends the visitor to
    the login page. *)
Lemma mount_ignores_empty_token :
  ~ (forall (w : world) (t : string),
       localStorage w !! "token" = Some t ->
       user (AuthContext.mount w).2 = Some {| token := JStr t |}
       /\ ProtectedRoute.ProtectedRoute (AuthContext.mount w).2
          = ProtectedRoute.Children).
Proof.
  intros H.
  destruct (H (Examples.fresh {[ "token" := "" ]} Examples.offline) "")
    as [Hu _]; [reflexivity|].
  vm_compute in Hu. discriminate.
Qed.


Lemma request_console c w :
  let sent := with_token (localStorage w) c in
  console (Api.request c w).2
  = console w ++ request_log (localStorage w) sent
      ++ match backend w (network w ++ [sent]) with
         | Replied r =>
             if Api.validateStatus (status r) then response_log r
             else rejection_log r
         | NoReply => no_reply_log
         end.
Proof.
  cbn zeta. rewrite request_run. unfold request_outcome.
  destruct (backend w _) as [r|]; [|done].
  destruct (Api.validateStatus (status r)); [done|].
  by destruct (status r =? 401)%Z.
Qed.

Lemma data_log_FormData entries (p : string * string) :
  p ∈ entries ->
  (Log, [AStr (p.1 +:+ ": " +:+ p.2)]) ∈ data_log (FormData entries).
Proof.
  intros Hp. cbn [data_log]. right.
  apply (list_elem_of_fmap_2
           (fun pair : string * string =>
              (Log, [AStr (pair.1 +:+ ": " +:+ pair.2)]))). exact Hp.
Qed.

(** C2: every call through the client writes to the console the headers
    it sends, the bearer token among them when one is stored, and the
    request data; when the server answers, the whole response data is
    written too.  A successful [login] thus leaves on the console the
    body that holds the very access token it stores. *)
Theorem api_call_logs_bodies_and_token :
  (forall (c : config) (w : world),
      let run := Api.request c w in
      exists sent logs,
        network run.2 = network w ++ [sent]
        /\ console run.2 = console w ++ logs
        /\ (Log, [AStr "Request Headers:"; AHeaders (headers sent)]) ∈ logs
        /\ (forall t, localStorage w !! "token" = Some t -> t <> "" ->
              headers sent !! "Authorization" = Some ("Bearer " +:+ t))
        /\ match config_data c with
           | FormData entries =>
               forall p, p ∈ entries ->
                 (Log, [AStr (p.1 +:+ ": " +:+ p.2)]) ∈ logs
           | d => (Log, [AStr "Request Data:"; ABody d]) ∈ logs
           end
        /\ (forall r, backend w (network run.2) = Replied r ->
              if Api.validateStatus (status r)
              then (Log, [AStr "Response Data:"; AVal (data r)]) ∈ logs
              else (Error, [AStr "Error Data:"; AVal (data r)]) ∈ logs))
  /\ (forall (username password : string) (w : world),
        let run := AuthContext.login username password w in
        run.1 = Ok true ->
        exists r logs,
          backend w (network run.2) = Replied r
          /\ console run.2 = console w ++ logs
          /\ (Log, [AStr "Response Data:"; AVal (data r)]) ∈ logs
          /\ prop (data r) "access_token" = Some (access_token_of r)
          /\ localStorage run.2 !! "token"
             = Some (toString (access_token_of r))).
Proof.
  split.
  - intros c w. cbn zeta.
    exists (with_token (localStorage w) c). eexists.
    split; [apply request_network|].
    split; [apply request_console|].
    destruct (with_token_frame (localStorage w) c) as (_ & _ & Hd).
    split; [|split; [|split]].
    + apply elem_of_app. left. unfold request_log.
      apply elem_of_app. left. set_solver.
    + intros t Ht Hne. rewrite with_token_headers, Ht, truthy_str_true by done.
      apply lookup_insert_eq.
    + assert (forall e, e ∈ data_log (config_data c) ->
                e ∈ request_log (localStorage w)
                      (with_token (localStorage w) c) ++
                    match backend w (network w ++
                            [with_token (localStorage w) c]) with
                    | Replied r =>
                        if Api.validateStatus (status r) then response_log r
                        else rejection_log r
                    | NoReply => no_reply_log
                    end) as Hin.
      { intros e He. apply elem_of_app. left. unfold request_log.
        rewrite Hd. apply elem_of_app. right. apply elem_of_app. by left. }
      destruct (config_data c) as [|v|entries|entries].
      1-3: apply Hin; cbn [data_log]; set_solver.
      intros p Hp. apply Hin. by apply data_log_FormData.
    + intros r. rewrite request_network. intros ->.
      destruct (Api.validateStatus (status r));
        apply elem_of_app; right;
        unfold response_log, rejection_log; set_solver.
  - intros username password w. cbn zeta.
    destruct (AuthContext.login username password w) as [res w'] eqn:Hrun.
    cbn [fst snd]. intros ->.
    apply login_inv in Hrun. cbn zeta in Hrun.
    destruct Hrun as (Hn & _ & _ & _ & Hcase). rewrite Hn.
    destruct (backend w _) as [r|].
    2: { destruct Hcase as (_ & [=] & _). }
    destruct (Api.validateStatus (status r)).
    2: { destruct Hcase as (_ & [=] & _). }
    destruct Hcase as ((rest & Hc) & _ & Hcase).
    destruct (truthy (access_token_of r)) eqn:Ht.
    2: { destruct Hcase as ([=] & _). }
    destruct Hcase as (_ & Hls & _).
    exists r. eexists. split; [done|]. split; [exact Hc|].
    split; [|split].
    + apply elem_of_app. right. apply elem_of_app. left.
      unfold response_log. set_solver.
    + unfold access_token_of in *. destruct (data r); try discriminate.
      reflexivity.
    + rewrite Hls. apply lookup_insert_eq.
Qed.

Lemma api_call_logs_bodies_and_token_witness :
  let w := Examples.fresh {[ "token" := "eyJ.old" ]} Examples.welcoming in
  let run := AuthContext.login "alice" "Abcdef12" w in
  exists r logs,
    backend w (network run.2) = Replied r
    /\ console run.2 = console w ++ logs
    /\ (Log, [AStr "Response Data:"; AVal (data r)]) ∈ logs
    /\ prop (data r) "access_token" = Some (access_token_of r)
    /\ localStorage run.2 !! "token" = Some (toString (access_token_of r)).
Proof.
  apply (proj2 api_call_logs_bodies_and_token "alice" "Abcdef12"
           (Examples.fresh {[ "token" := "eyJ.old" ]} Examples.welcoming)).
  vm_compute. reflexivity.
Defined.

(** ** [login]: the token and the console *)

Lemma login_network username password w :
  network (AuthContext.login username password w).2
  = network w
      ++ [with_token (localStorage w) (login_config username password)].
Proof.
  destruct (AuthContext.login username password w) as [res w'] eqn:Hrun.
  by apply login_inv in Hrun as (Hn & _).
Qed.

Lemma login_console username password w :
  exists rest,
    console (AuthContext.login username password w).2
    = console w ++ login_prelude username password ++ rest.
Proof.
  destruct (AuthContext.login username password w) as [res w'] eqn:Hrun.
  apply login_inv in Hrun as (_ & _ & _ & _ & Hcase). cbn zeta in Hcase.
  cbn [snd].
  destruct (backend w _) as [r|].
  - destruct (Api.validateStatus (status r)).
    + destruct Hcase as ((rest & ->) & _).
      eexists. rewrite <- !app_assoc. reflexivity.
    + destruct Hcase as ((rest & ->) & _).
      eexists. rewrite <- !app_assoc. reflexivity.
  - destruct Hcase as ((rest & ->) & _).
    eexists. rewrite <- !app_assoc. reflexivity.
Qed.

(** C4: [login] returns [true] exactly when the server answers its
    request with a 2xx response whose body has a truthy [access_token],
    which for a string means not empty; it then stores that token under
    ['token'] and makes it the user's.  When the body or its
    [access_token] is missing, or the token is the empty string, [login]
    throws, and the storage and the user stay as they were.  Whenever
    [login] does not return [true] it throws, and a token found in the
    storage afterwards was there before. *)
Theorem login_succeeds_iff_access_token (username password : string)
    (w : world) :
  let run := AuthContext.login username password w in
  (run.1 = Ok true
   <-> exists r, backend w (network run.2) = Replied r
                 /\ Api.validateStatus (status r) = true
                 /\ truthy (access_token_of r) = true)
  /\ (forall r,
        backend w (network run.2) = Replied r ->
        Api.validateStatus (status r) = true ->
        (forall fields t,
            data r = JObj fields ->
            assoc "access_token" fields = Some (JStr t) -> t <> "" ->
            run.1 = Ok true
            /\ localStorage run.2 = <["token" := t]> (localStorage w)
            /\ user run.2 = Some {| token := JStr t |})
        /\ (truthy (access_token_of r) = true ->
            localStorage run.2
            = <["token" := toString (access_token_of r)]> (localStorage w)
            /\ user run.2 = Some {| token := access_token_of r |})
        /\ (truthy (data r) = false
            \/ prop (data r) "access_token" = Some JUndefined
            \/ prop (data r) "access_token" = Some JNull
            \/ prop (data r) "access_token" = Some (JStr "") ->
            run.1 = Throw (Error_ "Invalid login response format")
            /\ localStorage run.2 = localStorage w
            /\ user run.2 = user w))
  /\ (run.1 <> Ok true ->
      (exists e, run.1 = Throw e)
      /\ user run.2 = user w
      /\ forall t, localStorage run.2 !! "token" = Some t ->
                   localStorage w !! "token" = Some t).
Proof.
  cbn zeta. rewrite login_network.
  destruct (AuthContext.login username password w) as [res w'] eqn:Hrun.
  apply login_inv in Hrun as (_ & _ & _ & _ & Hcase). cbn zeta in Hcase.
  cbn [fst snd].
  destruct (backend w _) as [r|].
  2: { destruct Hcase as (_ & -> & Hu & Hls & _). split; [|split].
       - split; [done|]. by intros (r & [=] & _).
       - by intros r [=].
       - intros _. rewrite Hls. eauto. }
  destruct (Api.validateStatus (status r)) eqn:Hv.
  2: { destruct Hcase as (_ & -> & Hu & Hls). split; [|split].
       - split; [done|]. intros (r' & [= <-] & Hv' & _). congruence.
       - intros r' [= <-]. congruence.
       - intros _. split; [eauto|]. split; [done|].
         destruct (status r =? 401)%Z; destruct Hls as (-> & _); [|done].
         intros t. by rewrite lookup_delete_eq. }
  destruct Hcase as (_ & _ & Hcase).
  destruct (truthy (access_token_of r)) eqn:Ht.
  - destruct Hcase as (-> & Hls & Hu). split; [|split].
    + split; [eauto|done].
    + intros r' [= <-] _. split; [|split; [done|]].
      * intros fields t Hd Ha Hne. unfold access_token_of in *.
        rewrite Hd in *. cbn [prop] in *. rewrite Ha in *.
        cbn in *. done.
      * unfold access_token_of in Ht.
        intros [Hd|[Hp|[Hp|Hp]]].
        -- apply truthy_prop in Ht. congruence.
        -- by rewrite Hp in Ht.
        -- by rewrite Hp in Ht.
        -- by rewrite Hp in Ht.
    + done.
  - destruct Hcase as (-> & Hls & Hu). split; [|split].
    + split; [done|]. intros (r' & [= <-] & _ & Ht'). congruence.
    + intros r' [= <-] _. split; [|split; [congruence|by intros _]].
      intros fields t Hd Ha Hne. unfold access_token_of in Ht.
      rewrite Hd in Ht. cbn [prop] in Ht. rewrite Ha in Ht.
      cbn in Ht. by rewrite truthy_str_true in Ht.
    + intros _. rewrite Hls. eauto.
Qed.

Lemma login_succeeds_iff_access_token_witness :
  let w := Examples.fresh ∅ Examples.welcoming in
  let run := AuthContext.login "alice" "Abcdef12" w in
  run.1 = Ok true
  /\ localStorage run.2 = <["token" := "eyJ.abc.def"]> (localStorage w)
  /\ user run.2 = Some {| token := JStr "eyJ.abc.def" |}.
Proof.
  destruct (login_succeeds_iff_access_token "alice" "Abcdef12"
              (Examples.fresh ∅ Examples.welcoming)) as (_ & H & _).
  destruct (H Examples.token_reply) as (Hs & _).
  - vm_compute. reflexivity.
  - reflexivity.
  - apply (Hs [("access_token", JStr "eyJ.abc.def");
               ("token_type", JStr "bearer")] "eyJ.abc.def");
      [reflexivity|reflexivity|discriminate].
Defined.

(** C1 fails on the code: [login] writes the line [password: <password>]
    to the console, and the request interceptor writes the body of the
    registration request, which holds the password. *)
Theorem login_logs_plaintext_password :
  (forall (username password : string) (w : world),
      exists logs,
        console (AuthContext.login username password w).2
        = console w ++ logs
        /\ (Log, [AStr ("password: " +:+ password)]) ∈ logs)
  /\ (forall (username password : string) (w : world),
        exists logs,
          console (AuthContext.register username password w).2
          = console w ++ logs
          /\ (Log, [AStr "Request Data:";
                    ABody (JsonBody (JObj [("username", JStr username);
                                           ("password", JStr password)]))])
             ∈ logs).
Proof.
  split; intros username password w.
  - destruct (login_console username password w) as (rest & ->).
    eexists. split; [reflexivity|].
    apply elem_of_app. left. unfold login_prelude. set_solver.
  - rewrite register_run. cbn zeta.
    set (start := add_console _ w).
    set (c := with_token (localStorage w) (register_config username password)).
    assert (exists rest,
               console (request_outcome start c).2
               = console w
                   ++ [(Log, [AStr "Starting registration request with:";
                              AObj [("username", AStr username)]])]
                   ++ request_log (localStorage w) c ++ rest) as (rest & Hc).
    { unfold request_outcome. subst start. fields.
      destruct (backend w _) as [r|];
        [destruct (Api.validateStatus (status r));
         [|destruct (status r =? 401)%Z]|];
        fields; eexists; rewrite <- !app_assoc; reflexivity. }
    assert ((Log, [AStr "Request Data:";
                   ABody (JsonBody (JObj [("username", JStr username);
                                          ("password", JStr password)]))])
            ∈ request_log (localStorage w) c) as Hin.
    { subst c. unfold request_log.
      destruct (with_token_frame (localStorage w)
                  (register_config username password)) as (_ & _ & ->).
      cbn [config_data register_config data_log]. set_solver. }
    destruct (request_outcome start c) as [[r|e] w1]; cbn [snd] in Hc.
    + destruct (login_console username password
                  (add_console (Log, [AStr "Registration successful"]) w1))
        as (rest' & Hl).
      destruct (AuthContext.login username password _) as [[b|e] w2];
        cbn [snd] in *; fields; rewrite Hl; fields; rewrite Hc;
        eexists; (split; [rewrite <- !app_assoc; reflexivity|]);
        apply elem_of_cons; right; apply elem_of_app; left; exact Hin.
    + fields. rewrite Hc. eexists.
      (split; [rewrite <- !app_assoc; reflexivity|]).
      apply elem_of_cons; right; apply elem_of_app; left; exact Hin.
Qed.

(** ** The login form *)

Lemma map_m_read_prop k items w :
  exists res, Login.map_m (fun err => read_prop err k) items w = (res, w).
Proof.
  induction items as [|x items (res & IH)]; [by eexists|].
  cbn [Login.map_m]. unfold bind at 1. unfold read_prop at 1.
  destruct (prop x k); [|by eexists].
  unfold ret at 1. unfold bind at 1. rewrite IH.
  destruct res; by eexists.
Qed.

Lemma detail_message_pure d fallback w :
  exists res, Login.detail_message d fallback w = (res, w).
Proof.
  unfold Login.detail_message. unfold bind at 1. unfold read_prop at 1.
  destruct (prop d "detail") as [detail|]; [|by eexists].
  unfold ret at 1.
  destruct detail; try (destruct (truthy _); by eexists).
  unfold bind.
  destruct (map_m_read_prop "msg" items w) as (res & ->).
  destruct res; by eexists.
Qed.

(** Choosing the message reads the error and writes nothing. *)
Lemma errorMessage_pure error w :
  exists res, Login.errorMessage error w = (res, w).
Proof.
  unfold Login.errorMessage.
  destruct (error_response error) as [r|]; [|by eexists].
  destruct (status r =? 401)%Z; [by eexists|].
  destruct (status r =? 422)%Z; [apply detail_message_pure|].
  destruct (status r =? 500)%Z; by eexists.
Qed.

Lemma handleSubmit_valid s w :
  Login.validateUsername (Login.username s) = "" ->
  Login.validatePassword (Login.password s) = "" ->
  Login.handleSubmit s w
  = let s1 := Login.set_errors_form (JStr "") (Login.set_isLoading true s) in
    match AuthContext.login (Login.username s) (Login.password s) w with
    | (Ok result, w1) =>
        (Ok tt, Login.set_isLoading false s1,
         if result then add_navigation "/tasks" w1 else w1)
    | (Throw error, w1) =>
        match Login.errorMessage error
                (add_console (Error, [AStr "Login error:"; AErr error]) w1)
        with
        | (Ok msg, w2) =>
            (Ok tt, Login.set_isLoading false (Login.set_errors_form msg s1),
             w2)
        | (Throw e, w2) => (Throw e, Login.set_isLoading false s1, w2)
        end
    end.
Proof.
  intros Hu Hp. unfold Login.handleSubmit. rewrite Hu, Hp.
  cbn [truthy_str orb]. reflexivity.
Qed.

Lemma handleSubmit_network s w :
  Login.validateUsername (Login.username s) = "" ->
  Login.validatePassword (Login.password s) = "" ->
  network (Login.handleSubmit s w).2
  = network (AuthContext.login (Login.username s) (Login.password s) w).2.
Proof.
  intros Hu Hp. rewrite handleSubmit_valid by done. cbn zeta.
  destruct (AuthContext.login _ _ w) as [[b|e] w1]; cbn [snd].
  - by destruct b.
  - destruct (errorMessage_pure e
                (add_console (Error, [AStr "Login error:"; AErr e]) w1))
      as (res & ->).
    by destruct res.
Qed.

Lemma handleSubmit_401 s w r :
  Login.validateUsername (Login.username s) = "" ->
  Login.validatePassword (Login.password s) = "" ->
  backend w (network (Login.handleSubmit s w).2) = Replied r ->
  status r = 401%Z ->
  let run := Login.handleSubmit s w in
  run.1.1 = Ok tt
  /\ Login.errors_form run.1.2 = JStr "Incorrect username or password"
  /\ Login.errors_username run.1.2 = Login.errors_username s
  /\ Login.errors_password run.1.2 = Login.errors_password s
  /\ Login.isLoading run.1.2 = false
  /\ navigations run.2 = navigations w
  /\ location_href run.2 = "/login".
Proof.
  intros Hu Hp Hr Hs. rewrite handleSubmit_network in Hr by done.
  cbn zeta. rewrite handleSubmit_valid by done. cbn zeta.
  rewrite login_network in Hr.
  destruct (AuthContext.login _ _ w) as [res w1] eqn:Hrun.
  apply login_inv in Hrun as (_ & _ & Hnav & _ & Hcase). cbn zeta in Hcase.
  rewrite Hr, Hs in Hcase.
  cbn [Api.validateStatus Z.leb Z.ltb Z.compare Pos.compare
       Pos.compare_cont andb Z.eqb Pos.eqb] in Hcase.
  destruct Hcase as (_ & -> & _ & _ & Hhref).
  unfold Login.errorMessage. cbn [error_response Api.AxiosError].
  rewrite Hs. cbn [Z.eqb Pos.eqb]. unfold ret. cbn [fst snd]. fields.
  done.
Qed.

(** C3: a login attempt that the server answers with status 401 shows one
    constant message, whatever the username, the password and the body of
    the response; two such attempts leave the same message on the form,
    the field errors as they were, and the browser on [/login]. *)
Theorem login_401_message_is_uniform (s1 s2 : Login.state) (w1 w2 : world)
    (r1 r2 : response) :
  let run1 := Login.handleSubmit s1 w1 in
  let run2 := Login.handleSubmit s2 w2 in
  Login.validateUsername (Login.username s1) = "" ->
  Login.validatePassword (Login.password s1) = "" ->
  Login.validateUsername (Login.username s2) = "" ->
  Login.validatePassword (Login.password s2) = "" ->
  backend w1 (network run1.2) = Replied r1 -> status r1 = 401%Z ->
  backend w2 (network run2.2) = Replied r2 -> status r2 = 401%Z ->
  Login.errors_form run1.1.2 = JStr "Incorrect username or password"
  /\ Login.errors_form run2.1.2 = Login.errors_form run1.1.2
  /\ Login.errors_username run1.1.2 = Login.errors_username s1
  /\ Login.errors_password run1.1.2 = Login.errors_password s1
  /\ Login.errors_username run2.1.2 = Login.errors_username s2
  /\ Login.errors_password run2.1.2 = Login.errors_password s2
  /\ location_href run1.2 = "/login"
  /\ location_href run2.2 = location_href run1.2.
Proof.
  cbn zeta. intros Hu1 Hp1 Hu2 Hp2 Hr1 Hs1 Hr2 Hs2.
  destruct (handleSubmit_401 s1 w1 r1 Hu1 Hp1 Hr1 Hs1)
    as (_ & Hf1 & He1 & Hq1 & _ & _ & Hh1).
  destruct (handleSubmit_401 s2 w2 r2 Hu2 Hp2 Hr2 Hs2)
    as (_ & Hf2 & He2 & Hq2 & _ & _ & Hh2).
  rewrite Hf1, Hf2, Hh1, Hh2. done.
Qed.

Lemma login_401_message_is_uniform_witness :
  let run1 :=
    Login.handleSubmit Examples.alice
      (Examples.fresh ∅ (Examples.always Examples.unauthorized)) in
  let run2 :=
    Login.handleSubmit Examples.bob
      (Examples.fresh ∅ (Examples.always Examples.no_such_user)) in
  Login.errors_form run1.1.2 = JStr "Incorrect username or password"
  /\ Login.errors_form run2.1.2 = Login.errors_form run1.1.2
  /\ Login.errors_username run1.1.2 = Login.errors_username Examples.alice
  /\ Login.errors_password run1.1.2 = Login.errors_password Examples.alice
  /\ Login.errors_username run2.1.2 = Login.errors_username Examples.bob
  /\ Login.errors_password run2.1.2 = Login.errors_password Examples.bob
  /\ location_href run1.2 = "/login"
  /\ location_href run2.2 = location_href run1.2.
Proof.
  apply (login_401_message_is_uniform Examples.alice Examples.bob
           (Examples.fresh ∅ (Examples.always Examples.unauthorized))
           (Examples.fresh ∅ (Examples.always Examples.no_such_user))
           Examples.unauthorized Examples.no_such_user);
    reflexivity.
Defined.

(** ** [register] *)

Lemma login_start_not_in_request_log ls c :
  (forall entries, config_data c <> FormData entries) ->
  (Log, [AStr "=== Login Flow Start ==="]) ∉ request_log ls c.
Proof.
  intros Hd. unfold request_log.
  rewrite !elem_of_app, !elem_of_cons, elem_of_nil.
  intros [H|[H|H]].
  - repeat destruct H as [H|H]; try discriminate; done.
  - destruct (config_data c) as [|v|entries|entries]; cbn [data_log] in H.
    4: by eapply Hd.
    all: apply elem_of_cons in H as [H|H]; [discriminate|];
      by apply elem_of_nil in H.
  - destruct (truthy_item _); [|by apply elem_of_nil in H].
    apply elem_of_cons in H as [H|H]; [discriminate|].
    by apply elem_of_nil in H.
Qed.

(** What [register] has on the console when its own request failed. *)
Lemma register_failure_log ls c (tail : list log_entry) :
  (forall entries, config_data c <> FormData entries) ->
  (exists r, tail = rejection_log r) \/ tail = no_reply_log ->
  forall first last : list log_arg,
    (Log, [AStr "=== Login Flow Start ==="])
    ∉ (Log, AStr "Starting registration request with:" :: first)
      :: request_log ls c ++ tail
      ++ [(Error, AStr "Registration/Login error:" :: last)].
Proof.
  intros Hd Ht first last.
  rewrite elem_of_cons, !elem_of_app, elem_of_cons, elem_of_nil.
  intros [H|[H|[H|[H|H]]]]; try discriminate; try done.
  - by apply (login_start_not_in_request_log ls c Hd).
  - destruct Ht as [[r ->] | ->]; unfold rejection_log, no_reply_log in H;
      rewrite !elem_of_cons, elem_of_nil in H;
      repeat destruct H as [H|H]; try discriminate; done.
Qed.

(** [registration] by cases on what the server does. *)
Lemma registration_run username password w :
  registration username password w
  = let start :=
      add_console (Log, [AStr "Starting registration request with:";
                         AObj [("username", AStr username)]]) w in
    let c := with_token (localStorage w)
               (register_config username password) in
    match request_outcome start c with
    | (Ok r, w1) =>
        (Ok r, add_console (Log, [AStr "Registration successful"]) w1)
    | (Throw e, w1) => (Throw e, w1)
    end.
Proof.
  unfold registration.
  unfold bind at 1. unfold console_log at 1.
  unfold effect at 1. unfold bind at 1. unfold Api.post.
  rewrite request_run. fold (register_config username password).
  cbn zeta. fields.
  destruct (request_outcome _ _) as [[r|e] w1]; reflexivity.
Qed.

(** C10: [register] posts the username and the password to [/register].
    When that request succeeds, [login] runs with the same username and
    password in the world the registration left, which differs from the
    one [register] started in by that request and the console only; it
    sends the second request, and its result, value or error, is the
    result of [register], as are the storage, the user and the location
    it leaves.  When the registration request fails, the error is thrown
    on to the caller, that request is the only one sent, and [login]
    never starts. *)
Theorem register_then_login (username password : string) (w : world) :
  let run := AuthContext.register username password w in
  let first := registration username password w in
  let second := AuthContext.login username password first.2 in
  exists sent,
    url sent = "/register" /\ method sent = "post"
    /\ config_data sent
       = JsonBody (JObj [("username", JStr username);
                         ("password", JStr password)])
    /\ network first.2 = network w ++ [sent]
    /\ match backend w (network w ++ [sent]) with
       | Replied r =>
           if Api.validateStatus (status r) then
             first.1 = Ok r
             /\ localStorage first.2 = localStorage w
             /\ user first.2 = user w
             /\ location_href first.2 = location_href w
             /\ backend first.2 = backend w
             /\ run.1 = second.1
             /\ network run.2 = network second.2
             /\ localStorage run.2 = localStorage second.2
             /\ user run.2 = user second.2
             /\ location_href run.2 = location_href second.2
             /\ exists sent',
                  network run.2 = network w ++ [sent; sent']
                  /\ url sent' = "/login"
                  /\ config_data sent'
                     = URLSearchParams [("username", username);
                                        ("password", password);
                                        ("grant_type", "password")]
                  /\ match backend w (network w ++ [sent; sent']) with
                     | Replied r2 =>
                         if Api.validateStatus (status r2)
                            && truthy (access_token_of r2)
                         then run.1 = Ok true
                         else exists e, run.1 = Throw e
                     | NoReply => exists e, run.1 = Throw e
                     end
           else
             (exists e, run.1 = Throw e /\ error_response e = Some r)
             /\ network run.2 = network w ++ [sent]
             /\ exists logs,
                  console run.2 = console w ++ logs
                  /\ (Log, [AStr "=== Login Flow Start ==="]) ∉ logs
       | NoReply =>
           (exists e, run.1 = Throw e /\ error_response e = None)
           /\ network run.2 = network w ++ [sent]
           /\ exists logs,
                console run.2 = console w ++ logs
                /\ (Log, [AStr "=== Login Flow Start ==="]) ∉ logs
       end.
Proof.
  cbn zeta. rewrite register_run, registration_run. cbn zeta.
  exists (with_token (localStorage w) (register_config username password)).
  destruct (with_token_frame (localStorage w)
              (register_config username password)) as (Hu & Hm & Hd).
  rewrite Hu, Hm, Hd. do 3 (split; [reflexivity|]).
  assert (forall entries,
             config_data (with_token (localStorage w)
                            (register_config username password))
             <> FormData entries) as Hnf by (by rewrite Hd).
  generalize dependent
    (with_token (localStorage w) (register_config username password)).
  intros c _ _ _ Hnf.
  unfold request_outcome. fields.
  destruct (backend w (network w ++ [c])) as [r|].
  - destruct (Api.validateStatus (status r)).
    + fields.
      set (w1 := add_console (Log, [AStr "Registration successful"]) _).
      do 6 (split; [reflexivity|]).
      destruct (AuthContext.login username password w1) as [res w2] eqn:Hrun.
      pose proof Hrun as Hinv.
      apply login_inv in Hinv as (Hn & _ & _ & _ & Hcase).
      cbn zeta in Hcase.
      change (localStorage w1) with (localStorage w) in Hn, Hcase.
      change (network w1) with (network w ++ [c]) in Hn, Hcase.
      change (backend w1) with (backend w) in Hcase.
      rewrite <- app_assoc in Hn, Hcase. cbn [app] in Hn, Hcase.
      set (c2 := with_token (localStorage w)
                   (login_config username password)) in *.
      assert (url c2 = "/login"
              /\ config_data c2
                 = URLSearchParams [("username", username);
                                    ("password", password);
                                    ("grant_type", "password")])
        as [Hu2 Hd2].
      { subst c2.
        by destruct (with_token_frame (localStorage w)
                       (login_config username password)) as (-> & _ & ->). }
      split; [by destruct res|].
      split; [by destruct res; fields|].
      split; [by destruct res; fields|].
      split; [by destruct res; fields|].
      split; [by destruct res; fields|].
      exists c2. split; [by destruct res; fields|].
      split; [done|]. split; [done|].
      destruct (backend w (network w ++ [c; c2])) as [r2|].
      * destruct (Api.validateStatus (status r2)); cbn [andb].
        -- destruct Hcase as (_ & _ & Hcase).
           destruct (truthy (access_token_of r2)).
           ++ by destruct Hcase as (-> & _).
           ++ destruct Hcase as (-> & _). eauto.
        -- destruct Hcase as (_ & -> & _). eauto.
      * destruct Hcase as (_ & -> & _). eauto.
    + split; [by destruct (status r =? 401)%Z; fields|].
      split; [eauto|].
      destruct (status r =? 401)%Z; fields; (split; [done|]);
        eexists; (split; [rewrite <- !app_assoc; reflexivity|]);
        apply register_failure_log; eauto.
  - split; [by fields|].
    split; [eauto|]. fields. split; [done|].
    eexists. split; [rewrite <- !app_assoc; reflexivity|].
    apply register_failure_log; eauto.
Qed.

(** ** The forms reject before they send *)

Lemma not_ok_validation u p :
  ~ (Rules.username_ok u /\ Rules.password_ok p) ->
  truthy_str (Login.validateUsername u)
  || truthy_str (Login.validatePassword p) = true.
Proof.
  intros Hno.
  destruct (truthy_str (Login.validateUsername u)) eqn:Hu; [done|].
  destruct (truthy_str (Login.validatePassword p)) eqn:Hp; [done|].
  apply truthy_str_empty in Hu, Hp. destruct Hno.
  by rewrite <- validateUsername_ok, <- validatePassword_ok.
Qed.

(** C6: the two validation functions accept exactly the passwords and
    usernames of the format rules, in [Login.jsx] and in [Register.jsx]
    alike; a submission of either form with a field that fails them
    returns before anything is sent, and leaves the field errors on the
    form; a login submission that passes sends the one login request.
    The username [alice] and the password [Abcdef12] pass. *)
Theorem format_rules_gate_submission :
  (forall p, Login.validatePassword p = "" <-> Rules.password_ok p)
  /\ (forall u, Login.validateUsername u = "" <-> Rules.username_ok u)
  /\ (forall p, Register.validatePassword p = "" <-> Rules.password_ok p)
  /\ (forall u, Register.validateUsername u = "" <-> Rules.username_ok u)
  /\ (forall s w,
        ~ (Rules.username_ok (Login.username s)
           /\ Rules.password_ok (Login.password s)) ->
        let run := Login.handleSubmit s w in
        run.2 = w
        /\ run.1.1 = Ok tt
        /\ Login.errors_username run.1.2
           = Login.validateUsername (Login.username s)
        /\ Login.errors_password run.1.2
           = Login.validatePassword (Login.password s))
  /\ (forall s w,
        ~ (Rules.username_ok (Register.username s)
           /\ Rules.password_ok (Register.password s)) ->
        let run := Register.handleSubmit s w in
        network run.2 = network w
        /\ localStorage run.2 = localStorage w
        /\ user run.2 = user w
        /\ run.1.1 = Ok tt
        /\ Register.errors_username run.1.2
           = Register.validateUsername (Register.username s)
        /\ Register.errors_password run.1.2
           = Register.validatePassword (Register.password s))
  /\ (forall s w,
        Rules.username_ok (Login.username s) ->
        Rules.password_ok (Login.password s) ->
        exists sent,
          network (Login.handleSubmit s w).2 = network w ++ [sent]
          /\ url sent = "/login"
          /\ config_data sent
             = URLSearchParams [("username", Login.username s);
                                ("password", Login.password s);
                                ("grant_type", "password")])
  /\ Rules.username_ok "alice" /\ Rules.password_ok "Abcdef12".
Proof.
  split; [exact validatePassword_ok|].
  split; [exact validateUsername_ok|].
  split; [exact validatePassword_ok|].
  split; [exact validateUsername_ok|].
  split; [|split; [|split]].
  - intros s w Hno. cbn zeta. unfold Login.handleSubmit.
    by rewrite not_ok_validation.
  - intros s w Hno. cbn zeta. unfold Register.handleSubmit.
    change Register.validateUsername with Login.validateUsername.
    change Register.validatePassword with Login.validatePassword.
    rewrite not_ok_validation by done. cbn [orb]. by fields.
  - intros s w Hu%validateUsername_ok Hp%validatePassword_ok.
    rewrite handleSubmit_network, login_network by done.
    eexists. split; [reflexivity|].
    destruct (with_token_frame (localStorage w)
                (login_config (Login.username s) (Login.password s)))
      as (-> & _ & ->).
    done.
  - split.
    + by apply validateUsername_ok.
    + by apply validatePassword_ok.
Qed.

Lemma format_rules_gate_submission_witness :
  let run :=
    Login.handleSubmit Examples.short_name
      (Examples.fresh ∅ Examples.welcoming) in
  run.2 = Examples.fresh ∅ Examples.welcoming
  /\ run.1.1 = Ok tt
  /\ Login.errors_username run.1.2
     = Login.validateUsername (Login.username Examples.short_name)
  /\ Login.errors_password run.1.2
     = Login.validatePassword (Login.password Examples.short_name).
Proof.
  destruct format_rules_gate_submission as (_ & _ & _ & _ & H & _).
  apply (H Examples.short_name (Examples.fresh ∅ Examples.welcoming)).
  intros [[Hlen _] _]. cbn in Hlen. lia.
Defined.

(** * More of the client *)

(** * More of the client *)

(** ** The forms between submissions *)







(** While the request is under way the fields still pass the rules and
    the button is disabled; typing does not enable it. *)
Example login_form_in_flight :
  let typed := LoginForm.handleChange LoginForm.password_input "Abcdef12"
                 (LoginForm.handleChange LoginForm.username_input "alice"
                    LoginForm.initial) in
  let waiting := LoginForm.submit typed in
  let retyped :=
    LoginForm.handleChange LoginForm.password_input "Abcdef123" waiting in
  LoginForm.reachable waiting 1 /\ LoginForm.reachable retyped 1
  /\ Login.isLoading waiting = true /\ LoginForm.isValid waiting = true
  /\ LoginForm.disabled waiting = true /\ LoginForm.disabled retyped = true
  /\ LoginForm.disabled (LoginForm.settle None retyped) = false.
Proof.
  cbn zeta.
  assert (LoginForm.reachable
            (LoginForm.submit
               (LoginForm.handleChange LoginForm.password_input "Abcdef12"
                  (LoginForm.handleChange LoginForm.username_input "alice"
                     LoginForm.initial))) 1) as Hw.
  { apply (LoginForm.reach_submit
             (LoginForm.handleChange LoginForm.password_input "Abcdef12"
                (LoginForm.handleChange LoginForm.username_input "alice"
                   LoginForm.initial)) 0).
    do 2 apply LoginForm.reach_change. apply LoginForm.reach_initial. }
  split; [exact Hw|]. split; [by apply LoginForm.reach_change|].
  repeat split; reflexivity.
Qed.

Lemma register_errorMessage_pure error w :
  exists res, Register.errorMessage error w = (res, w).
Proof.
  unfold Register.errorMessage.
  destruct (error_response error) as [r|]; [|by eexists].
  destruct (status r =? 400)%Z.
  { unfold bind, read_prop. destruct (prop (data r) "detail") as [d|];
      [|by eexists]. unfold ret. destruct (truthy d); by eexists. }
  destruct (status r =? 422)%Z; [apply detail_message_pure|].
  destruct (status r =? 500)%Z; by eexists.
Qed.



(** When every check passes, the registration form hands over to
    [register]. *)
Lemma register_handleSubmit_valid s w :
  Register.validateUsername (Register.username s) = "" ->
  Register.validatePassword (Register.password s) = "" ->
  Register.password s = Register.confirmPassword s ->
  Register.handleSubmit s w
  = let w0 := add_console (Log, [AStr "inside handleSubmit..."]) w in
    let s1 := Register.set_errors_form (JStr "")
                (Register.set_isLoading true s) in
    match AuthContext.register (Register.username s) (Register.password s)
            w0 with
    | (Ok _, w1) =>
        (Ok tt, Register.set_isLoading false s1,
         add_navigation "/tasks"
           (add_console (Log, [AStr "inside  if (result) {..."])
              (add_console (Log, [AStr "Registration and login successful"])
                 w1)))
    | (Throw error, w1) =>
        match Register.errorMessage error
                (add_console (Error, [AStr "Registration error:"; AErr error])
                   (add_console (Log, [AStr "inside Registration error"]) w1))
        with
        | (Ok msg, w2) =>
            (Ok tt,
             Register.set_isLoading false (Register.set_errors_form msg s1),
             w2)
        | (Throw e, w2) => (Throw e, Register.set_isLoading false s1, w2)
        end
    end.
Proof.
  intros Hu Hp Hc. unfold Register.handleSubmit. rewrite Hu, Hp, <- Hc.
  rewrite String.eqb_refl. cbn [truthy_str orb negb]. reflexivity.
Qed.

(** When a check fails, it returns at once. *)
Lemma register_handleSubmit_invalid s w :
  truthy_str (Register.validateUsername (Register.username s))
  || truthy_str (Register.validatePassword (Register.password s))
  || truthy_str (RegisterForm.mismatch (Register.password s)
                   (Register.confirmPassword s)) = true ->
  Register.handleSubmit s w
  = (Ok tt,
     Register.set_errors
       (Register.validateUsername (Register.username s))
       (Register.validatePassword (Register.password s))
       (RegisterForm.mismatch (Register.password s)
          (Register.confirmPassword s))
       (JStr "") s,
     add_console (Log, [AStr "inside handleSubmit..."]) w).
Proof.
  intros H. unfold Register.handleSubmit.
  change (if negb (String.eqb (Register.password s)
                     (Register.confirmPassword s))
          then "Passwords do not match" else "")
    with (RegisterForm.mismatch (Register.password s)
            (Register.confirmPassword s)).
  by rewrite H.
Qed.



Lemma register_network username password w :
  exists rest,
    network (AuthContext.register username password w).2
    = network w
        ++ with_token (localStorage w) (register_config username password)
        :: rest.
Proof.
  rewrite register_run. cbn zeta.
  set (c := with_token (localStorage w) (register_config username password)).
  unfold request_outcome. fields.
  destruct (backend w (network w ++ [c])) as [r|].
  - destruct (Api.validateStatus (status r)).
    + set (w1 := add_console _ _).
      pose proof (login_network username password w1) as Hn.
      change (network w1) with (network w ++ [c]) in Hn.
      destruct (AuthContext.login username password w1) as [[b|e] w2];
        cbn [snd] in *; fields; rewrite Hn, <- app_assoc; by eexists.
    + destruct (status r =? 401)%Z; fields; by exists [].
  - fields. by exists [].
Qed.



(** The same in the registration form. *)
Example register_form_in_flight :
  let typed :=
    RegisterForm.handleChange RegisterForm.confirmPassword_input "Abcdef12"
      (RegisterForm.handleChange RegisterForm.password_input "Abcdef12"
         (RegisterForm.handleChange RegisterForm.username_input "alice"
            RegisterForm.initial)) in
  let waiting := RegisterForm.submit typed in
  RegisterForm.reachable waiting 1
  /\ Register.isLoading waiting = true
  /\ RegisterForm.isValid waiting = true
  /\ RegisterForm.disabled waiting = true
  /\ RegisterForm.disabled (RegisterForm.settle None waiting) = false.
Proof.
  cbn zeta. split; [|repeat split; reflexivity].
  apply (RegisterForm.reach_submit
           (RegisterForm.handleChange RegisterForm.confirmPassword_input
              "Abcdef12"
              (RegisterForm.handleChange RegisterForm.password_input
                 "Abcdef12"
                 (RegisterForm.handleChange RegisterForm.username_input
                    "alice" RegisterForm.initial))) 0).
  do 3 apply RegisterForm.reach_change. apply RegisterForm.reach_initial.
Qed.

(** X3: a registration whose confirmation differs from the password is
    turned down before anything is sent, even when username and password
    pass the rules: the form shows [Passwords do not match], and the
    storage, the user and the router are as before. *)
Theorem register_rejects_password_mismatch (s : Register.state) (w : world) :
  Register.password s <> Register.confirmPassword s ->
  let run := Register.handleSubmit s w in
  run.1.1 = Ok tt
  /\ Register.errors_confirmPassword run.1.2 = "Passwords do not match"
  /\ network run.2 = network w
  /\ localStorage run.2 = localStorage w
  /\ user run.2 = user w
  /\ navigations run.2 = navigations w
  /\ location_href run.2 = location_href w.
Proof.
  intros Hne. cbn zeta.
  assert (RegisterForm.mismatch (Register.password s)
            (Register.confirmPassword s) = "Passwords do not match") as Hm.
  { unfold RegisterForm.mismatch.
    by destruct (String.eqb_spec (Register.password s)
                   (Register.confirmPassword s)). }
  rewrite register_handleSubmit_invalid.
  - cbn. by rewrite Hm.
  - rewrite Hm. cbn. by rewrite !orb_true_r.
Qed.

Lemma register_rejects_password_mismatch_witness :
  let s :=
    RegisterForm.handleChange RegisterForm.confirmPassword_input "Abcdef13"
      (RegisterForm.handleChange RegisterForm.password_input "Abcdef12"
         (RegisterForm.handleChange RegisterForm.username_input "alice"
            RegisterForm.initial)) in
  let w := Examples.fresh ∅ Examples.welcoming in
  let run := Register.handleSubmit s w in
  run.1.1 = Ok tt
  /\ Register.errors_confirmPassword run.1.2 = "Passwords do not match"
  /\ network run.2 = network w
  /\ localStorage run.2 = localStorage w
  /\ user run.2 = user w
  /\ navigations run.2 = navigations w
  /\ location_href run.2 = location_href w.
Proof.
  apply (register_rejects_password_mismatch
           (RegisterForm.handleChange RegisterForm.confirmPassword_input
              "Abcdef13"
              (RegisterForm.handleChange RegisterForm.password_input
                 "Abcdef12"
                 (RegisterForm.handleChange RegisterForm.username_input
                    "alice" RegisterForm.initial)))
           (Examples.fresh ∅ Examples.welcoming)).
  discriminate.
Defined.

(** ** Which message a field gets *)

Lemma test_class_false cls s (P : ascii -> Prop) :
  (forall c, in_class cls c = true <-> P c) ->
  test_class cls s = false <-> ~ exists c, c ∈ Rules.chars s /\ P c.
Proof.
  intros HP. rewrite <- not_true_iff_false, test_class_spec.
  split; intros Hn (c & Hc & H); apply Hn; exists c; by rewrite ?HP in *.
Qed.

Ltac settle :=
  intros;
  repeat match goal with
         | H : _ /\ _ |- _ => destruct H
         | H : ?x <> ?x |- _ => by destruct H
         | H : ~ _ |- _ => by (destruct H; eauto)
         end;
  try discriminate; try lia; try done; eauto 6.

(** X4: [validatePassword], the same function in both forms, reports the
    first rule that fails, in the order: required, length, uppercase,
    lowercase, digit; each of its five messages is returned exactly when
    the rules before it hold and its own fails. *)
Theorem validatePassword_reports_first_failure (p : string) :
  let upper := exists c, c ∈ Rules.chars p /\ Rules.uppercase c in
  let lower := exists c, c ∈ Rules.chars p /\ Rules.lowercase c in
  let digit := exists c, c ∈ Rules.chars p /\ Rules.digit c in
  Register.validatePassword p = Login.validatePassword p
  /\ (Login.validatePassword p = "Password is required" <-> p = "")
  /\ (Login.validatePassword p
      = "Password must be at least 8 characters long"
      <-> p <> "" /\ (String.length p < 8)%nat)
  /\ (Login.validatePassword p
      = "Password must contain at least one uppercase letter"
      <-> (8 <= String.length p)%nat /\ ~ upper)
  /\ (Login.validatePassword p
      = "Password must contain at least one lowercase letter"
      <-> (8 <= String.length p)%nat /\ upper /\ ~ lower)
  /\ (Login.validatePassword p
      = "Password must contain at least one number"
      <-> (8 <= String.length p)%nat /\ upper /\ lower /\ ~ digit).
Proof.
  cbn zeta. split; [reflexivity|]. unfold Login.validatePassword.
  destruct (truthy_str p) eqn:Hp; cbn [negb].
  2: { apply truthy_str_empty in Hp. subst p. cbn.
       repeat split; try discriminate; try lia; try done;
         settle. }
  assert (p <> "") as Hne by (intros ->; discriminate).
  destruct (String.length p <? 8)%nat eqn:Hl.
  { apply Nat.ltb_lt in Hl.
    repeat split; try discriminate; try done;
      settle. }
  apply Nat.ltb_ge in Hl.
  destruct (test_class upper_AZ p) eqn:Hu; cbn [negb].
  2: { apply (test_class_false _ _ _ in_class_upper) in Hu.
       repeat split; try discriminate; try done;
         settle. }
  apply test_class_spec in Hu as (cu & Hcu & Hu%in_class_upper).
  destruct (test_class lower_az p) eqn:Hw; cbn [negb].
  2: { apply (test_class_false _ _ _ in_class_lower) in Hw.
       repeat split; try discriminate; try done; eauto;
         settle. }
  apply test_class_spec in Hw as (cl & Hcl & Hw%in_class_lower).
  destruct (test_class digit_09 p) eqn:Hd; cbn [negb].
  2: { apply (test_class_false _ _ _ in_class_digit) in Hd.
       repeat split; try discriminate; try done; eauto;
         settle. }
  apply test_class_spec in Hd as (cd & Hcd & Hd%in_class_digit).
  repeat split; try discriminate; try done;
    settle.
Qed.

(** X5: [validateUsername], the same function in both forms, reports the
    first rule that fails: required, then length, then the characters
    allowed. *)
Theorem validateUsername_reports_first_failure (u : string) :
  let allowed c :=
    Rules.letter c \/ Rules.digit c \/ c = "_"%char \/ c = "-"%char in
  Register.validateUsername u = Login.validateUsername u
  /\ (Login.validateUsername u = "Username is required" <-> u = "")
  /\ (Login.validateUsername u
      = "Username must be at least 3 characters long"
      <-> u <> "" /\ (String.length u < 3)%nat)
  /\ (Login.validateUsername u
      = "Username must contain only letters, numbers, underscores, and hyphens"
      <-> (3 <= String.length u)%nat
          /\ exists c, c ∈ Rules.chars u /\ ~ allowed c).
Proof.
  cbn zeta. split; [reflexivity|]. unfold Login.validateUsername.
  destruct (truthy_str u) eqn:Hp; cbn [negb].
  2: { apply truthy_str_empty in Hp. subst u. cbn.
       repeat split; try discriminate; try done;
         settle. }
  assert (u <> "") as Hne by (intros ->; discriminate).
  destruct (String.length u <? 3)%nat eqn:Hl.
  { apply Nat.ltb_lt in Hl.
    repeat split; try discriminate; try done;
      settle. }
  apply Nat.ltb_ge in Hl.
  unfold test_class_plus. rewrite Hp. cbn [andb].
  destruct (all_in_class word_dash u) eqn:Ha; cbn [negb].
  - pose proof (proj1 (all_in_class_spec _ _) Ha) as Hall.
    repeat split; try discriminate; try done; try (settle; fail).
    intros (_ & c & Hc & Hn). destruct Hn. apply in_class_word. auto.
  - repeat split; try discriminate; try done;
      try (settle; fail).
    clear Hp Hne Hl H. revert Ha. unfold Rules.chars.
    induction u as [|a u IH]; [discriminate|].
    cbn [all_in_class String.list_ascii_of_string].
    destruct (in_class word_dash a) eqn:Hin; cbn [andb].
    + intros (c & Hc & Hn)%IH. exists c. split; [by right|done].
    + intros _. exists a. split; [left|].
      rewrite <- in_class_word. congruence.
Qed.

(** ** What a request can and cannot touch *)

(** X6: a call through the client sends exactly one request, whatever
    comes of it, and there is no retry; it never writes a key of
    localStorage (the storage afterwards is the one before, or that
    without ['token']), never changes the user or [loading] of
    [AuthProvider] nor the router, only adds lines to the console, and
    leaves the location alone or sets it to [/login]. *)
Theorem request_sends_once_and_writes_nothing (c : config) (w : world) :
  let after := (Api.request c w).2 in
  (exists sent, network after = network w ++ [sent])
  /\ (localStorage after = localStorage w
      \/ localStorage after = delete "token" (localStorage w))
  /\ (forall k v, localStorage after !! k = Some v ->
                  localStorage w !! k = Some v)
  /\ user after = user w
  /\ loading after = loading w
  /\ navigations after = navigations w
  /\ backend after = backend w
  /\ (exists logs, console after = console w ++ logs)
  /\ (location_href after = location_href w
      \/ location_href after = "/login").
Proof.
  cbn zeta. rewrite request_run. unfold request_outcome.
  assert (forall ls : gmap string string,
             ls = localStorage w \/ ls = delete "token" (localStorage w) ->
             forall k v, ls !! k = Some v -> localStorage w !! k = Some v)
    as Hsub.
  { intros ls [-> | ->] k v; [done|].
    rewrite lookup_delete_Some. tauto. }
  destruct (backend w _) as [r|];
    [destruct (Api.validateStatus (status r));
     [|destruct (status r =? 401)%Z]|];
    fields; repeat split; eauto.
Qed.

(** X7: only an answer can log the user out.  A request that gets no
    reply is rejected with an error that carries no response; a 2xx reply
    is handed to the caller as it came; in both cases the stored token and
    the location are as before. *)
Theorem request_without_error_reply_keeps_session (c : config) (w : world) :
  let run := Api.request c w in
  match backend w (network run.2) with
  | NoReply =>
      (exists e, run.1 = Throw e /\ error_response e = None
                 /\ message e = "Network Error")
      /\ localStorage run.2 = localStorage w
      /\ location_href run.2 = location_href w
  | Replied r =>
      if Api.validateStatus (status r) then
        run.1 = Ok r
        /\ localStorage run.2 = localStorage w
        /\ location_href run.2 = location_href w
      else exists e, run.1 = Throw e /\ error_response e = Some r
  end.
Proof.
  cbn zeta. rewrite request_network, request_run. unfold request_outcome.
  destruct (backend w _) as [r|].
  - destruct (Api.validateStatus (status r)); [by fields|].
    cbn [fst]. by eexists.
  - fields. split; [by eexists|done].
Qed.

(** X8: [login] posts its form as
    [application/x-www-form-urlencoded], overriding the client's default,
    and [register] posts JSON; a stored token rides along on both. *)
Theorem login_and_register_content_types (username password : string)
    (w : world) :
  (exists sent,
      network (AuthContext.login username password w).2 = network w ++ [sent]
      /\ method sent = "post" /\ url sent = "/login"
      /\ headers sent !! "Content-Type"
         = Some "application/x-www-form-urlencoded"
      /\ forall t, localStorage w !! "token" = Some t -> t <> "" ->
           headers sent !! "Authorization" = Some ("Bearer " +:+ t))
  /\ (exists sent rest,
        network (AuthContext.register username password w).2
        = network w ++ sent :: rest
        /\ method sent = "post" /\ url sent = "/register"
        /\ headers sent !! "Content-Type" = Some "application/json"
        /\ forall t, localStorage w !! "token" = Some t -> t <> "" ->
             headers sent !! "Authorization" = Some ("Bearer " +:+ t)).
Proof.
  assert (forall c,
             headers (with_token (localStorage w) c) !! "Content-Type"
             = headers c !! "Content-Type") as Hct.
  { intros c. rewrite with_token_headers.
    destruct (localStorage w !! "token") as [t|]; [|done].
    destruct (truthy_str t); [|done]. by rewrite lookup_insert_ne. }
  assert (forall c t, localStorage w !! "token" = Some t -> t <> "" ->
             headers (with_token (localStorage w) c) !! "Authorization"
             = Some ("Bearer " +:+ t)) as Hau.
  { intros c t Ht Hne. rewrite with_token_headers, Ht, truthy_str_true by done.
    apply lookup_insert_eq. }
  split.
  - eexists. split; [apply login_network|].
    destruct (with_token_frame (localStorage w)
                (login_config username password)) as (-> & -> & _).
    rewrite Hct. repeat split; auto.
  - destruct (register_network username password w) as (rest & ->).
    eexists _, rest. split; [reflexivity|].
    destruct (with_token_frame (localStorage w)
                (register_config username password)) as (-> & -> & _).
    rewrite Hct. repeat split; auto.
Qed.

(** ** A page load *)

(** X9: a page starts on the loading placeholder whatever is stored; once
    the mount effect has run, [ProtectedRoute] renders its children if a
    non-empty token is stored and redirects to [/login] if not, and the
    effect has sent nothing and stored nothing. *)
Theorem page_load_renders_by_stored_token (w : world) :
  let w0 := AuthContext.initial w in
  let w1 := (AuthContext.mount w0).2 in
  ProtectedRoute.ProtectedRoute w0 = ProtectedRoute.LoadingPlaceholder
  /\ ProtectedRoute.ProtectedRoute w1
     = (if truthy_item (localStorage w !! "token")
        then ProtectedRoute.Children
        else ProtectedRoute.Navigate "/login")
  /\ network w1 = network w
  /\ localStorage w1 = localStorage w
  /\ location_href w1 = location_href w.
Proof.
  cbn zeta. split; [done|]. rewrite mount_run.
  unfold AuthContext.initial. fields.
  destruct (localStorage w !! "token") as [t|]; [destruct t|]; done.
Qed.

(** ** What a submission of the login form ends in *)

(** A valid submission whose login throws: the form's state and the
    world are those the choice of the message leaves. *)
Lemma handleSubmit_thrown s w e w1 :
  Login.validateUsername (Login.username s) = "" ->
  Login.validatePassword (Login.password s) = "" ->
  AuthContext.login (Login.username s) (Login.password s) w = (Throw e, w1) ->
  let s1 := Login.set_errors_form (JStr "") (Login.set_isLoading true s) in
  let w2 := add_console (Error, [AStr "Login error:"; AErr e]) w1 in
  Login.handleSubmit s w
  = match (Login.errorMessage e w2).1 with
    | Ok msg =>
        (Ok tt, Login.set_isLoading false (Login.set_errors_form msg s1), w2)
    | Throw e' => (Throw e', Login.set_isLoading false s1, w2)
    end.
Proof.
  intros Hu Hp Hl. rewrite handleSubmit_valid by done. cbn zeta.
  rewrite Hl.
  destruct (errorMessage_pure e
              (add_console (Error, [AStr "Login error:"; AErr e]) w1))
    as (res & ->).
  by destruct res.
Qed.

(** X10: a valid submission of the login form goes to [/tasks] exactly
    when the server answered 2xx with a truthy [access_token]; the form
    then shows no error and the token is stored.  In every other case the
    router is not touched and the user is as before.  Either way the form
    is no longer loading when the handler ends, even if it throws. *)
Theorem login_form_navigates_iff_logged_in (s : Login.state) (w : world) :
  Login.validateUsername (Login.username s) = "" ->
  Login.validatePassword (Login.password s) = "" ->
  let run := Login.handleSubmit s w in
  let accepted :=
    exists r, backend w (network run.2) = Replied r
              /\ Api.validateStatus (status r) = true
              /\ truthy (access_token_of r) = true in
  Login.isLoading run.1.2 = false
  /\ (navigations run.2 = navigations w ++ ["/tasks"] <-> accepted)
  /\ (accepted ->
      run.1.1 = Ok tt
      /\ Login.errors_form run.1.2 = JStr ""
      /\ is_Some (localStorage run.2 !! "token")
      /\ is_Some (user run.2))
  /\ (~ accepted ->
      navigations run.2 = navigations w /\ user run.2 = user w).
Proof.
  intros Hu Hp. cbn zeta.
  rewrite handleSubmit_network, login_network by done.
  destruct (AuthContext.login (Login.username s) (Login.password s) w)
    as [res w1] eqn:Hrun.
  pose proof Hrun as Hinv.
  apply login_inv in Hinv as (_ & _ & Hnav & _ & Hcase). cbn zeta in Hcase.
  assert (forall l : list string, l <> l ++ ["/tasks"]) as Hneq.
  { intros l H. apply (f_equal length) in H. rewrite length_app in H.
    cbn in H. lia. }
  assert (forall e, res = Throw e ->
            Login.isLoading (Login.handleSubmit s w).1.2 = false
            /\ navigations (Login.handleSubmit s w).2 = navigations w
            /\ user (Login.handleSubmit s w).2 = user w1) as Hthrown.
  { intros e ->. rewrite (handleSubmit_thrown s w e w1 Hu Hp Hrun).
    cbn zeta. destruct (Login.errorMessage e _).1; by fields. }
  destruct (backend w _) as [r|].
  2: { destruct Hcase as (_ & -> & Hus & _).
       destruct (Hthrown _ eq_refl) as (Hl & Hn & Hur).
       rewrite Hn, Hur. split; [done|]. split; [|split; [|done]].
       - split; [by intros ?%Hneq|]. by intros (r & [=] & _).
       - by intros (r & [=] & _). }
  destruct (Api.validateStatus (status r)) eqn:Hv.
  2: { destruct Hcase as (_ & -> & Hus & _).
       destruct (Hthrown _ eq_refl) as (Hl & Hn & Hur).
       rewrite Hn, Hur. split; [done|]. split; [|split; [|done]].
       - split; [by intros ?%Hneq|].
         intros (r' & [= <-] & ? & _). congruence.
       - intros (r' & [= <-] & ? & _). congruence. }
  destruct Hcase as (_ & _ & Hcase).
  destruct (truthy (access_token_of r)) eqn:Ht.
  - destruct Hcase as (-> & Hls & Hus).
    rewrite handleSubmit_valid by done. cbn zeta. rewrite Hrun. fields.
    rewrite Hnav, Hls, Hus, lookup_insert_eq.
    split; [done|]. split; [split; [eauto|done]|].
    split; [done|]. intros Hn. destruct Hn. eauto.
  - destruct Hcase as (-> & Hls & Hus).
    destruct (Hthrown _ eq_refl) as (Hl & Hn & Hur).
    rewrite Hn, Hur. split; [done|]. split; [|split; [|done]].
    + split; [by intros ?%Hneq|].
      intros (r' & [= <-] & _ & ?). congruence.
    + intros (r' & [= <-] & _ & ?). congruence.
Qed.

Lemma login_form_navigates_iff_logged_in_witness :
  let run := Login.handleSubmit Examples.alice
               (Examples.fresh ∅ Examples.welcoming) in
  let accepted :=
    exists r,
      backend (Examples.fresh ∅ Examples.welcoming) (network run.2)
      = Replied r
      /\ Api.validateStatus (status r) = true
      /\ truthy (access_token_of r) = true in
  Login.isLoading run.1.2 = false
  /\ (navigations run.2
      = navigations (Examples.fresh ∅ Examples.welcoming) ++ ["/tasks"]
      <-> accepted)
  /\ (accepted ->
      run.1.1 = Ok tt
      /\ Login.errors_form run.1.2 = JStr ""
      /\ is_Some (localStorage run.2 !! "token")
      /\ is_Some (user run.2))
  /\ (~ accepted ->
      navigations run.2 = navigations (Examples.fresh ∅ Examples.welcoming)
      /\ user run.2 = user (Examples.fresh ∅ Examples.welcoming)).
Proof.
  apply (login_form_navigates_iff_logged_in Examples.alice
           (Examples.fresh ∅ Examples.welcoming)); reflexivity.
Defined.

(** A valid submission that the server turns down. *)
Lemma handleSubmit_rejected s w r :
  Login.validateUsername (Login.username s) = "" ->
  Login.validatePassword (Login.password s) = "" ->
  backend w (network (Login.handleSubmit s w).2) = Replied r ->
  Api.validateStatus (status r) = false ->
  exists e w2,
    error_response e = Some r
    /\ Login.handleSubmit s w
       = let s1 := Login.set_errors_form (JStr "")
                     (Login.set_isLoading true s) in
         match (Login.errorMessage e w2).1 with
         | Ok msg =>
             (Ok tt, Login.set_isLoading false (Login.set_errors_form msg s1),
              w2)
         | Throw e' => (Throw e', Login.set_isLoading false s1, w2)
         end.
Proof.
  intros Hu Hp Hr Hv. rewrite handleSubmit_network, login_network in Hr by done.
  destruct (AuthContext.login (Login.username s) (Login.password s) w)
    as [res w1] eqn:Hrun.
  pose proof Hrun as Hinv.
  apply login_inv in Hinv as (_ & _ & _ & _ & Hcase). cbn zeta in Hcase.
  rewrite Hr, Hv in Hcase. destruct Hcase as (_ & -> & _).
  eexists _, _. split; [|by apply handleSubmit_thrown]. done.
Qed.

(** A valid submission whose login throws an error with no response. *)
Lemma handleSubmit_no_response s w e w1 :
  Login.validateUsername (Login.username s) = "" ->
  Login.validatePassword (Login.password s) = "" ->
  AuthContext.login (Login.username s) (Login.password s) w = (Throw e, w1) ->
  error_response e = None ->
  (Login.handleSubmit s w).1.1 = Ok tt
  /\ Login.errors_form (Login.handleSubmit s w).1.2
     = JStr "Login failed. Please try again.".
Proof.
  intros Hu Hp Hrun He. rewrite (handleSubmit_thrown s w e w1 Hu Hp Hrun).
  cbn zeta. unfold Login.errorMessage. rewrite He. done.
Qed.

(** X11: what the login form shows after a valid submission failed, by
    what the server did: no reply, or a 2xx reply without a token, gives
    [Login failed. Please try again.]; a reply of status 401, 500 or any
    other outside 2xx and 422 gives the message of that status. *)
Theorem login_form_message_by_status (s : Login.state) (w : world) :
  Login.validateUsername (Login.username s) = "" ->
  Login.validatePassword (Login.password s) = "" ->
  let run := Login.handleSubmit s w in
  match backend w (network run.2) with
  | NoReply =>
      run.1.1 = Ok tt
      /\ Login.errors_form run.1.2 = JStr "Login failed. Please try again."
  | Replied r =>
      if Api.validateStatus (status r) then
        truthy (access_token_of r) = false ->
        run.1.1 = Ok tt
        /\ Login.errors_form run.1.2
           = JStr "Login failed. Please try again."
      else
        status r <> 422%Z ->
        run.1.1 = Ok tt
        /\ Login.errors_form run.1.2
           = JStr (if (status r =? 401)%Z
                   then "Incorrect username or password"
                   else if (status r =? 500)%Z
                        then "Server error. Please try again later."
                        else "An unexpected error occurred. Please try again.")
  end.
Proof.
  intros Hu Hp. cbn zeta.
  destruct (backend w _) as [r|] eqn:Hr.
  - destruct (Api.validateStatus (status r)) eqn:Hv.
    + intros Ht. rewrite handleSubmit_network, login_network in Hr by done.
      destruct (AuthContext.login (Login.username s) (Login.password s) w)
        as [res w1] eqn:Hrun.
      pose proof Hrun as Hinv.
      apply login_inv in Hinv as (_ & _ & _ & _ & Hcase).
      cbn zeta in Hcase. rewrite Hr, Hv, Ht in Hcase.
      destruct Hcase as (_ & _ & -> & _).
      eapply handleSubmit_no_response; eauto.
    + intros H422.
      destruct (handleSubmit_rejected s w r Hu Hp Hr Hv)
        as (e & w2 & He & ->).
      cbn zeta. unfold Login.errorMessage. rewrite He.
      apply Z.eqb_neq in H422. rewrite H422.
      destruct (status r =? 401)%Z; [done|].
      by destruct (status r =? 500)%Z.
  - rewrite handleSubmit_network, login_network in Hr by done.
    destruct (AuthContext.login (Login.username s) (Login.password s) w)
      as [res w1] eqn:Hrun.
    pose proof Hrun as Hinv.
    apply login_inv in Hinv as (_ & _ & _ & _ & Hcase).
    cbn zeta in Hcase. rewrite Hr in Hcase.
    destruct Hcase as (_ & -> & _).
    eapply handleSubmit_no_response; eauto.
Qed.

Lemma login_form_message_by_status_witness :
  let run := Login.handleSubmit Examples.alice
               (Examples.fresh ∅ (Examples.always Samples.teapot)) in
  run.1.1 = Ok tt
  /\ Login.errors_form run.1.2
     = JStr "An unexpected error occurred. Please try again.".
Proof.
  apply (login_form_message_by_status Examples.alice
           (Examples.fresh ∅ (Examples.always Samples.teapot))
           eq_refl eq_refl).
  discriminate.
Defined.

Lemma map_m_msgs items msgs w :
  Forall2 (fun item m => prop item "msg" = Some (JStr m)) items msgs ->
  Login.map_m (fun err => read_prop err "msg") items w
  = (Ok (map JStr msgs), w).
Proof.
  induction 1 as [|item m items msgs Hm _ IH]; [done|].
  cbn [Login.map_m map]. unfold bind at 1. unfold read_prop at 1.
  rewrite Hm. unfold ret at 1. unfold bind at 1. by rewrite IH.
Qed.

Lemma join_strings sep msgs : join sep (map JStr msgs) = String.concat sep msgs.
Proof.
  unfold join. f_equal. induction msgs as [|m msgs IH]; [done|].
  cbn. by rewrite IH.
Qed.

Lemma detail_message_list d fallback items msgs w :
  prop d "detail" = Some (JArr items) ->
  Forall2 (fun item m => prop item "msg" = Some (JStr m)) items msgs ->
  Login.detail_message d fallback w
  = (Ok (JStr (String.concat ", " msgs)), w).
Proof.
  intros Hd Hm. unfold Login.detail_message, bind at 1, read_prop at 1.
  rewrite Hd. unfold ret at 1. unfold bind.
  rewrite (map_m_msgs items msgs w Hm). unfold ret.
  by rewrite join_strings.
Qed.

Lemma detail_message_value d fallback v w :
  prop d "detail" = Some v -> (forall items, v <> JArr items) ->
  Login.detail_message d fallback w
  = (Ok (if truthy v then v else fallback), w).
Proof.
  intros Hd Hv. unfold Login.detail_message, bind at 1, read_prop at 1.
  rewrite Hd. unfold ret.
  destruct v; try by destruct (truthy _). by destruct (Hv items).
Qed.

Lemma detail_message_null d fallback w :
  nullish d = true ->
  exists e,
    Login.detail_message d fallback w = (Throw e, w)
    /\ error_name e = "TypeError".
Proof.
  intros Hn. unfold Login.detail_message, bind at 1, read_prop at 1.
  destruct d; try discriminate; by eexists.
Qed.

(** X12: what the login form shows after a 422.  A [detail] that is a
    list shows the [msg] of its items joined by a comma and a space; a
    [detail] that is a non-empty string shows that string; a body with no
    [detail] shows [Login failed. Please try again.]; and a body that is
    [null] makes the handler itself throw a TypeError, with no message on
    the form, though still not loading. *)
Theorem login_form_message_on_422 (s : Login.state) (w : world)
    (r : response) :
  Login.validateUsername (Login.username s) = "" ->
  Login.validatePassword (Login.password s) = "" ->
  let run := Login.handleSubmit s w in
  backend w (network run.2) = Replied r ->
  status r = 422%Z ->
  (forall items msgs,
      prop (data r) "detail" = Some (JArr items) ->
      Forall2 (fun item m => prop item "msg" = Some (JStr m)) items msgs ->
      run.1.1 = Ok tt
      /\ Login.errors_form run.1.2 = JStr (String.concat ", " msgs))
  /\ (forall d,
        prop (data r) "detail" = Some (JStr d) -> d <> "" ->
        run.1.1 = Ok tt /\ Login.errors_form run.1.2 = JStr d)
  /\ (prop (data r) "detail" = Some JUndefined ->
      run.1.1 = Ok tt
      /\ Login.errors_form run.1.2 = JStr "Login failed. Please try again.")
  /\ (nullish (data r) = true ->
      (exists e, run.1.1 = Throw e /\ error_name e = "TypeError")
      /\ Login.errors_form run.1.2 = JStr ""
      /\ Login.isLoading run.1.2 = false).
Proof.
  intros Hu Hp. cbn zeta. intros Hr Hs.
  assert (Api.validateStatus (status r) = false) as Hv by (by rewrite Hs).
  destruct (handleSubmit_rejected s w r Hu Hp Hr Hv) as (e & w2 & He & ->).
  cbn zeta. unfold Login.errorMessage. rewrite He, Hs.
  cbn [Z.eqb Pos.eqb].
  split; [|split; [|split]].
  - intros items msgs Hd Hm.
    by rewrite (detail_message_list _ _ items msgs w2 Hd Hm).
  - intros d Hd Hne. rewrite (detail_message_value _ _ _ w2 Hd) by done.
    cbn [truthy]. by rewrite truthy_str_true.
  - intros Hd. by rewrite (detail_message_value _ _ _ w2 Hd).
  - intros Hn.
    destruct (detail_message_null (data r)
                (JStr "Login failed. Please try again.") w2 Hn)
      as (e' & -> & He').
    cbn. eauto.
Qed.

Lemma login_form_message_on_422_witness :
  let run := Login.handleSubmit Examples.alice
               (Examples.fresh ∅ (Examples.always Samples.unprocessable)) in
  run.1.1 = Ok tt
  /\ Login.errors_form run.1.2 = JStr "field required, field required".
Proof.
  destruct (login_form_message_on_422 Examples.alice
              (Examples.fresh ∅ (Examples.always Samples.unprocessable))
              Samples.unprocessable eq_refl eq_refl)
    as (H & _); [reflexivity|reflexivity|].
  eapply (H _ ["field required"; "field required"]); [reflexivity|].
  repeat constructor.
Defined.

(** ** The session across page loads *)

(** X13: a login whose token is a non-empty string survives a page load:
    the mount effect of the next page finds the token and restores the
    very user [login] had set, so [ProtectedRoute] renders its children;
    after [logout], the next page load redirects to [/login]. *)
Theorem login_survives_reload (username password : string) (w : world)
    (r : response) (t : string) :
  let w' := (AuthContext.login username password w).2 in
  backend w (network w') = Replied r ->
  Api.validateStatus (status r) = true ->
  access_token_of r = JStr t -> t <> "" ->
  let reloaded := (AuthContext.mount (AuthContext.initial w')).2 in
  let left := (AuthContext.logout w').2 in
  user w' = Some {| token := JStr t |}
  /\ user reloaded = user w'
  /\ ProtectedRoute.ProtectedRoute reloaded = ProtectedRoute.Children
  /\ ProtectedRoute.ProtectedRoute
       (AuthContext.mount (AuthContext.initial left)).2
     = ProtectedRoute.Navigate "/login".
Proof.
  cbn zeta. rewrite login_network.
  destruct (AuthContext.login username password w) as [res w'] eqn:Hrun.
  apply login_inv in Hrun as (_ & _ & _ & _ & Hcase). cbn zeta in Hcase.
  intros Hr Hv Ht Hne. rewrite Hr, Hv, Ht in Hcase. cbn [snd].
  cbn [truthy] in Hcase. rewrite truthy_str_true in Hcase by done.
  destruct Hcase as (_ & _ & _ & Hls & Hus). cbn [toString] in Hls.
  rewrite !mount_run. unfold AuthContext.initial, AuthContext.logout. run.
  rewrite Hls, lookup_insert_eq, truthy_str_true, lookup_delete_eq by done.
  unfold ProtectedRoute.ProtectedRoute. fields. by rewrite Hus.
Qed.

Lemma login_survives_reload_witness :
  let w := Examples.fresh ∅ Examples.welcoming in
  let w' := (AuthContext.login "alice" "Abcdef12" w).2 in
  let reloaded := (AuthContext.mount (AuthContext.initial w')).2 in
  let left := (AuthContext.logout w').2 in
  user w' = Some {| token := JStr "eyJ.abc.def" |}
  /\ user reloaded = user w'
  /\ ProtectedRoute.ProtectedRoute reloaded = ProtectedRoute.Children
  /\ ProtectedRoute.ProtectedRoute
       (AuthContext.mount (AuthContext.initial left)).2
     = ProtectedRoute.Navigate "/login".
Proof.
  apply (login_survives_reload "alice" "Abcdef12"
           (Examples.fresh ∅ Examples.welcoming) Examples.token_reply
           "eyJ.abc.def"); [reflexivity|reflexivity|reflexivity|discriminate].
Defined.

(** X14: [login], [register] and [logout] read and write no key of
    localStorage but ['token']: every other entry is after them what it
    was before. *)
Theorem auth_touches_only_the_token_key (username password : string)
    (w : world) (k : string) :
  k <> "token" ->
  localStorage (AuthContext.login username password w).2 !! k
  = localStorage w !! k
  /\ localStorage (AuthContext.register username password w).2 !! k
     = localStorage w !! k
  /\ localStorage (AuthContext.logout w).2 !! k = localStorage w !! k.
Proof.
  intros Hk.
  assert (forall u p w0,
             localStorage (AuthContext.login u p w0).2 !! k
             = localStorage w0 !! k) as Hlogin.
  { intros u p w0.
    destruct (AuthContext.login u p w0) as [res w'] eqn:Hrun.
    apply login_inv in Hrun as (_ & _ & _ & _ & Hcase). cbn zeta in Hcase.
    cbn [snd].
    destruct (backend w0 _) as [r|].
    - destruct (Api.validateStatus (status r)).
      + destruct Hcase as (_ & _ & Hcase).
        destruct (truthy (access_token_of r));
          destruct Hcase as (_ & -> & _); [|done].
        by rewrite lookup_insert_ne.
      + destruct Hcase as (_ & _ & _ & Hcase).
        destruct (status r =? 401)%Z; destruct Hcase as (-> & _); [|done].
        by rewrite lookup_delete_ne.
    - by destruct Hcase as (_ & _ & _ & -> & _). }
  split; [apply Hlogin|]. split.
  - rewrite register_run. cbn zeta. unfold request_outcome. fields.
    destruct (backend w _) as [r|].
    + destruct (Api.validateStatus (status r)).
      * set (w1 := add_console _ _).
        specialize (Hlogin username password w1).
        change (localStorage w1) with (localStorage w) in Hlogin.
        by destruct (AuthContext.login username password w1) as [[b|e] w2].
      * destruct (status r =? 401)%Z; fields; [|done].
        by rewrite lookup_delete_ne.
    + done.
  - unfold AuthContext.logout. run. by rewrite lookup_delete_ne.
Qed.

Lemma auth_touches_only_the_token_key_witness :
  let w := Samples.logged_in (Examples.always Examples.unauthorized) in
  localStorage (AuthContext.login "alice" "Abcdef12" w).2 !! "theme"
  = localStorage w !! "theme"
  /\ localStorage (AuthContext.register "alice" "Abcdef12" w).2 !! "theme"
     = localStorage w !! "theme"
  /\ localStorage (AuthContext.logout w).2 !! "theme"
     = localStorage w !! "theme".
Proof.
  apply (auth_touches_only_the_token_key "alice" "Abcdef12"
           (Samples.logged_in (Examples.always Examples.unauthorized))
           "theme").
  discriminate.
Defined.

(** X15: the interceptors cannot reach the state of [AuthProvider]: after
    a 401 the token is gone from the storage, yet the user the page holds
    is the one it held, so [ProtectedRoute] goes on rendering its
    children on that page; it is the next page load that redirects. *)
Theorem unauthorized_reply_leaves_user_state (c : config) (w : world)
    (r : response) (u : user_t) :
  let after := (Api.request c w).2 in
  user w = Some u -> loading w = false ->
  backend w (network after) = Replied r -> status r = 401%Z ->
  localStorage after !! "token" = None
  /\ user after = Some u
  /\ ProtectedRoute.ProtectedRoute after = ProtectedRoute.Children
  /\ ProtectedRoute.ProtectedRoute
       (AuthContext.mount (AuthContext.initial after)).2
     = ProtectedRoute.Navigate "/login".
Proof.
  cbn zeta. rewrite request_network, request_run. unfold request_outcome.
  intros Hu Hl -> E. rewrite E.
  cbn [Api.validateStatus Z.leb Z.ltb Z.compare Pos.compare
       Pos.compare_cont andb Z.eqb Pos.eqb snd].
  rewrite mount_run. unfold AuthContext.initial, ProtectedRoute.ProtectedRoute.
  fields. rewrite lookup_delete_eq, Hu, Hl. done.
Qed.

Lemma unauthorized_reply_leaves_user_state_witness :
  let w := Samples.logged_in (Examples.always Examples.unauthorized) in
  let after := (Api.request Examples.get_tasks w).2 in
  localStorage after !! "token" = None
  /\ user after = Some {| token := JStr "eyJ.abc.def" |}
  /\ ProtectedRoute.ProtectedRoute after = ProtectedRoute.Children
  /\ ProtectedRoute.ProtectedRoute
       (AuthContext.mount (AuthContext.initial after)).2
     = ProtectedRoute.Navigate "/login".
Proof.
  apply (unauthorized_reply_leaves_user_state Examples.get_tasks
           (Samples.logged_in (Examples.always Examples.unauthorized))
           Examples.unauthorized {| token := JStr "eyJ.abc.def" |});
    reflexivity.
Defined.

(** ** What a submission of the registration form ends in *)

(** [register] by cases on the two replies. *)
Lemma register_outcome username password w res w' :
  AuthContext.register username password w = (res, w') ->
  let c := with_token (localStorage w) (register_config username password) in
  let c2 := with_token (localStorage w) (login_config username password) in
  navigations w' = navigations w /\
  match backend w (network w ++ [c]) with
  | Replied r1 =>
      if Api.validateStatus (status r1) then
        network w' = network w ++ [c; c2] /\
        match backend w (network w ++ [c; c2]) with
        | Replied r2 =>
            if Api.validateStatus (status r2) && truthy (access_token_of r2)
            then res = Ok true
                 /\ localStorage w'
                    = <["token" := toString (access_token_of r2)]>
                        (localStorage w)
                 /\ user w' = Some {| token := access_token_of r2 |}
            else (exists e, res = Throw e) /\ user w' = user w
        | NoReply => (exists e, res = Throw e) /\ user w' = user w
        end
      else
        network w' = network w ++ [c]
        /\ res = Throw (Api.AxiosError
                          ("Request failed with status code "
                             +:+ pretty (status r1)) (Some r1))
        /\ user w' = user w
        /\ localStorage w'
           = if (status r1 =? 401)%Z then delete "token" (localStorage w)
             else localStorage w
  | NoReply =>
      network w' = network w ++ [c]
      /\ res = Throw (Api.AxiosError "Network Error" None)
      /\ user w' = user w /\ localStorage w' = localStorage w
  end.
Proof.
  rewrite register_run. cbn zeta. unfold request_outcome. fields.
  set (c := with_token (localStorage w) (register_config username password)).
  set (c2 := with_token (localStorage w) (login_config username password)).
  destruct (backend w (network w ++ [c])) as [r1|] eqn:Hb.
  2: { intros [= <- <-]. by fields. }
  destruct (Api.validateStatus (status r1)) eqn:Hv.
  2: { intros [= <- <-]. destruct (status r1 =? 401)%Z; by fields. }
  set (w1 := add_console _ _).
  destruct (AuthContext.login username password w1) as [res1 w2] eqn:Hrun.
  intros H.
  apply login_inv in Hrun as (Hn & _ & Hnav & _ & Hcase). cbn zeta in Hcase.
  change (localStorage w1) with (localStorage w) in Hcase, Hn.
  change (network w1) with (network w ++ [c]) in Hcase, Hn.
  change (backend w1) with (backend w) in Hcase.
  change (user w1) with (user w) in Hcase.
  change (navigations w1) with (navigations w) in Hnav.
  fold c2 in Hcase, Hn. rewrite <- app_assoc in Hcase, Hn.
  cbn [app] in Hcase, Hn.
  assert (network w' = network w2 /\ navigations w' = navigations w2
          /\ user w' = user w2 /\ localStorage w' = localStorage w2
          /\ (forall b, res1 = Ok b -> res = Ok b)
          /\ (forall e, res1 = Throw e -> res = Throw e)) as Hsame.
  { destruct res1; injection H as <- <-; fields; naive_solver. }
  clear H. destruct Hsame as (-> & -> & -> & -> & Hok & Hth).
  split; [done|]. split; [done|].
  destruct (backend w (network w ++ [c; c2])) as [r2|].
  - destruct (Api.validateStatus (status r2)); cbn [andb].
    + destruct Hcase as (_ & _ & Hcase).
      destruct (truthy (access_token_of r2)).
      * destruct Hcase as (-> & -> & ->). by rewrite (Hok _ eq_refl).
      * destruct Hcase as (-> & _ & ->). eauto.
    + destruct Hcase as (_ & -> & -> & _). eauto.
  - destruct Hcase as (_ & -> & -> & _). eauto.
Qed.

(** A valid submission of the registration form, by what [register]
    did. *)
Lemma register_handleSubmit_run s w res w1 :
  Register.validateUsername (Register.username s) = "" ->
  Register.validatePassword (Register.password s) = "" ->
  Register.password s = Register.confirmPassword s ->
  AuthContext.register (Register.username s) (Register.password s)
    (add_console (Log, [AStr "inside handleSubmit..."]) w) = (res, w1) ->
  let run := Register.handleSubmit s w in
  Register.isLoading run.1.2 = false
  /\ network run.2 = network w1 /\ user run.2 = user w1
  /\ localStorage run.2 = localStorage w1
  /\ match res with
     | Ok _ =>
         run.1.1 = Ok tt /\ Register.errors_form run.1.2 = JStr ""
         /\ navigations run.2 = navigations w1 ++ ["/tasks"]
     | Throw e =>
         navigations run.2 = navigations w1
         /\ exists w2,
              match (Register.errorMessage e w2).1 with
              | Ok msg =>
                  run.1.1 = Ok tt /\ Register.errors_form run.1.2 = msg
              | Throw e' =>
                  run.1.1 = Throw e'
                  /\ Register.errors_form run.1.2 = JStr ""
              end
     end.
Proof.
  intros Hu Hp Hc Hrun. cbn zeta.
  rewrite (register_handleSubmit_valid s w Hu Hp Hc). cbn zeta.
  rewrite Hrun. destruct res as [b|e]; [by fields|].
  set (w2 := add_console _ _).
  destruct (register_errorMessage_pure e w2) as (res & Hres).
  rewrite Hres.
  assert (exists w3, (Register.errorMessage e w3).1 = res) as (w3 & H3)
    by (exists w2; by rewrite Hres).
  destruct res as [msg|e']; fields; repeat split; try done;
    exists w3; by rewrite H3.
Qed.

(** X16: a valid submission of the registration form goes to [/tasks]
    exactly when the server answered 2xx to [/register] and then 2xx with
    a truthy [access_token] to the [/login] that follows; the two
    requests are then the only ones sent, and the token is stored.  In
    every other case the router is not touched and the user is as
    before.  Either way the form is no longer loading. *)
Theorem register_form_navigates_iff_logged_in (s : Register.state)
    (w : world) :
  Register.validateUsername (Register.username s) = "" ->
  Register.validatePassword (Register.password s) = "" ->
  Register.password s = Register.confirmPassword s ->
  let run := Register.handleSubmit s w in
  let sent :=
    with_token (localStorage w)
      (register_config (Register.username s) (Register.password s)) in
  let accepted :=
    exists r1 r2,
      backend w (network w ++ [sent]) = Replied r1
      /\ Api.validateStatus (status r1) = true
      /\ backend w (network run.2) = Replied r2
      /\ Api.validateStatus (status r2) = true
      /\ truthy (access_token_of r2) = true in
  Register.isLoading run.1.2 = false
  /\ (navigations run.2 = navigations w ++ ["/tasks"] <-> accepted)
  /\ (accepted ->
      run.1.1 = Ok tt
      /\ Register.errors_form run.1.2 = JStr ""
      /\ map url (drop (length (network w)) (network run.2))
         = ["/register"; "/login"]
      /\ is_Some (localStorage run.2 !! "token")
      /\ is_Some (user run.2))
  /\ (~ accepted ->
      navigations run.2 = navigations w /\ user run.2 = user w).
Proof.
  intros Hu Hp Hc. cbn zeta.
  set (w0 := add_console (Log, [AStr "inside handleSubmit..."]) w).
  destruct (AuthContext.register (Register.username s) (Register.password s)
              w0) as [res w1] eqn:Hrun.
  destruct (register_handleSubmit_run s w res w1 Hu Hp Hc Hrun)
    as (Hl & Hn & Hus & Hls & Hres).
  apply register_outcome in Hrun as (Hnav & Hcase). cbn zeta in Hcase.
  change (localStorage w0) with (localStorage w) in Hcase.
  change (network w0) with (network w) in Hcase.
  change (backend w0) with (backend w) in Hcase.
  change (user w0) with (user w) in Hcase.
  change (navigations w0) with (navigations w) in Hnav.
  rewrite Hn, Hus, Hls. split; [done|]. clear Hl.
  assert (forall l : list string, l <> l ++ ["/tasks"]) as Hneq.
  { intros l H. apply (f_equal length) in H. rewrite length_app in H.
    cbn in H. lia. }
  set (c := with_token (localStorage w) (register_config _ _)) in *.
  set (c2 := with_token (localStorage w) (login_config _ _)) in *.
  assert (forall e, res = Throw e ->
            navigations (Register.handleSubmit s w).2 = navigations w)
    as Hthrown.
  { intros e ->. destruct Hres as (-> & _). done. }
  destruct (backend w (network w ++ [c])) as [r1|].
  2: { destruct Hcase as (_ & -> & -> & _). rewrite (Hthrown _ eq_refl).
       split; [|split; [|done]].
       - split; [by intros ?%Hneq|]. by intros (? & ? & [=] & _).
       - by intros (? & ? & [=] & _). }
  destruct (Api.validateStatus (status r1)) eqn:Hv1.
  2: { destruct Hcase as (_ & -> & -> & _). rewrite (Hthrown _ eq_refl).
       split; [|split; [|done]].
       - split; [by intros ?%Hneq|].
         intros (? & ? & [= <-] & ? & _). congruence.
       - intros (? & ? & [= <-] & ? & _). congruence. }
  destruct Hcase as (Hn1 & Hcase). rewrite Hn1.
  assert (forall e,
            res = Throw e -> user w1 = user w ->
            (forall r2, backend w (network w ++ [c; c2]) = Replied r2 ->
                        Api.validateStatus (status r2)
                        && truthy (access_token_of r2) = false) ->
            (navigations (Register.handleSubmit s w).2
             = navigations w ++ ["/tasks"] <->
             exists r0 r2,
               Replied r1 = Replied r0
               /\ Api.validateStatus (status r0) = true
               /\ backend w (network w ++ [c; c2]) = Replied r2
               /\ Api.validateStatus (status r2) = true
               /\ truthy (access_token_of r2) = true)
            /\ ((exists r0 r2,
                    Replied r1 = Replied r0
                    /\ Api.validateStatus (status r0) = true
                    /\ backend w (network w ++ [c; c2]) = Replied r2
                    /\ Api.validateStatus (status r2) = true
                    /\ truthy (access_token_of r2) = true) ->
                (Register.handleSubmit s w).1.1 = Ok tt
                /\ Register.errors_form (Register.handleSubmit s w).1.2
                   = JStr ""
                /\ map url (drop (length (network w))
                              (network w ++ [c; c2]))
                   = ["/register"; "/login"]
                /\ is_Some (localStorage w1 !! "token")
                /\ is_Some (user w1))
            /\ (~ (exists r0 r2,
                      Replied r1 = Replied r0
                      /\ Api.validateStatus (status r0) = true
                      /\ backend w (network w ++ [c; c2]) = Replied r2
                      /\ Api.validateStatus (status r2) = true
                      /\ truthy (access_token_of r2) = true) ->
                navigations (Register.handleSubmit s w).2 = navigations w
                /\ user w1 = user w)) as Hno.
  { intros e He Hu1 Hb. rewrite (Hthrown _ He).
    assert (~ (exists r0 r2,
                  Replied r1 = Replied r0
                  /\ Api.validateStatus (status r0) = true
                  /\ backend w (network w ++ [c; c2]) = Replied r2
                  /\ Api.validateStatus (status r2) = true
                  /\ truthy (access_token_of r2) = true)) as Hnot.
    { intros (r0 & r2 & _ & _ & Hr2 & Hv2 & Ht2).
      specialize (Hb _ Hr2). rewrite Hv2, Ht2 in Hb. done. }
    split; [split; [by intros ?%Hneq|done]|]. split; [done|done]. }
  destruct (backend w (network w ++ [c; c2])) as [r2|] eqn:Hb2.
  2: { destruct Hcase as ((e & He) & Hu1). apply (Hno e He Hu1). done. }
  destruct (Api.validateStatus (status r2) && truthy (access_token_of r2))
    eqn:Hacc.
  2: { destruct Hcase as ((e & He) & Hu1). apply (Hno e He Hu1).
       by intros ? [= <-]. }
  clear Hno. destruct Hcase as (-> & Hls1 & Hus1).
  destruct Hres as (Hok & Hef & Hnv). rewrite Hok, Hef, Hnv, Hnav, Hls1, Hus1.
  apply andb_true_iff in Hacc as [Hv2 Ht2].
  rewrite lookup_insert_eq, drop_app_length.
  assert (url c = "/register" /\ url c2 = "/login") as [Hc1 Hc2].
  { subst c c2. split.
    - by destruct (with_token_frame (localStorage w)
                     (register_config (Register.username s)
                        (Register.password s))) as (-> & _).
    - by destruct (with_token_frame (localStorage w)
                     (login_config (Register.username s)
                        (Register.password s))) as (-> & _). }
  cbn [map]. rewrite Hc1, Hc2.
  split; [split; [|done]|].
  - intros _. exists r1, r2. done.
  - split; [done|]. intros Hnot. destruct Hnot. exists r1, r2. done.
Qed.

Lemma register_form_navigates_iff_logged_in_witness :
  let w := Examples.fresh ∅ Examples.welcoming in
  let run := Register.handleSubmit Samples.carol w in
  let sent :=
    with_token (localStorage w) (register_config "carol" "Abcdef12") in
  let accepted :=
    exists r1 r2,
      backend w (network w ++ [sent]) = Replied r1
      /\ Api.validateStatus (status r1) = true
      /\ backend w (network run.2) = Replied r2
      /\ Api.validateStatus (status r2) = true
      /\ truthy (access_token_of r2) = true in
  Register.isLoading run.1.2 = false
  /\ (navigations run.2 = navigations w ++ ["/tasks"] <-> accepted)
  /\ (accepted ->
      run.1.1 = Ok tt
      /\ Register.errors_form run.1.2 = JStr ""
      /\ map url (drop (length (network w)) (network run.2))
         = ["/register"; "/login"]
      /\ is_Some (localStorage run.2 !! "token")
      /\ is_Some (user run.2))
  /\ (~ accepted ->
      navigations run.2 = navigations w /\ user run.2 = user w).
Proof.
  apply (register_form_navigates_iff_logged_in Samples.carol
           (Examples.fresh ∅ Examples.welcoming)); reflexivity.
Defined.

(** X17: what the registration form shows when the server turns the
    [/register] request down.  No login is attempted and the router is
    not touched.  On a 400 the form shows the [detail] of the body, or
    [Username already exists] when it is missing or empty, and a body
    that is [null] makes the handler itself throw; a 500 and every other
    status but 422 have a message of their own, a 401 that of the other
    statuses. *)
Theorem register_form_message_by_status (s : Register.state) (w : world)
    (r : response) :
  Register.validateUsername (Register.username s) = "" ->
  Register.validatePassword (Register.password s) = "" ->
  Register.password s = Register.confirmPassword s ->
  let run := Register.handleSubmit s w in
  let sent :=
    with_token (localStorage w)
      (register_config (Register.username s) (Register.password s)) in
  backend w (network w ++ [sent]) = Replied r ->
  Api.validateStatus (status r) = false ->
  status r <> 422%Z ->
  network run.2 = network w ++ [sent]
  /\ navigations run.2 = navigations w
  /\ user run.2 = user w
  /\ Register.isLoading run.1.2 = false
  /\ if (status r =? 400)%Z then
       match prop (data r) "detail" with
       | Some d =>
           run.1.1 = Ok tt
           /\ Register.errors_form run.1.2
              = (if truthy d then d else JStr "Username already exists")
       | None =>
           (exists e, run.1.1 = Throw e /\ error_name e = "TypeError")
           /\ Register.errors_form run.1.2 = JStr ""
       end
     else
       run.1.1 = Ok tt
       /\ Register.errors_form run.1.2
          = JStr (if (status r =? 500)%Z
                  then "Server error. Please try again later."
                  else "An unexpected error occurred. Please try again.").
Proof.
  intros Hu Hp Hc. cbn zeta. intros Hr Hv H422.
  set (w0 := add_console (Log, [AStr "inside handleSubmit..."]) w).
  destruct (AuthContext.register (Register.username s) (Register.password s)
              w0) as [res w1] eqn:Hrun.
  destruct (register_handleSubmit_run s w res w1 Hu Hp Hc Hrun)
    as (Hl & Hn & Hus & _ & Hres).
  apply register_outcome in Hrun as (Hnav & Hcase). cbn zeta in Hcase.
  change (localStorage w0) with (localStorage w) in Hcase.
  change (network w0) with (network w) in Hcase.
  change (backend w0) with (backend w) in Hcase.
  change (user w0) with (user w) in Hcase.
  change (navigations w0) with (navigations w) in Hnav.
  rewrite Hr, Hv in Hcase. destruct Hcase as (Hn1 & -> & Hu1 & _).
  destruct Hres as (Hnv & w2 & Hmsg).
  rewrite Hn, Hn1, Hnv, Hnav, Hus, Hu1.
  do 4 (split; [done|]).
  revert Hmsg. unfold Register.errorMessage. cbn [error_response Api.AxiosError].
  apply Z.eqb_neq in H422. rewrite H422.
  destruct (status r =? 400)%Z.
  - unfold bind, read_prop.
    destruct (prop (data r) "detail") as [d|].
    + unfold ret. by destruct (truthy d).
    + cbn. intros [-> ->]. eauto.
  - by destruct (status r =? 500)%Z.
Qed.

Lemma register_form_message_by_status_witness :
  let w := Examples.fresh ∅ (Examples.always Examples.taken) in
  let run := Register.handleSubmit Samples.carol w in
  let sent :=
    with_token (localStorage w) (register_config "carol" "Abcdef12") in
  network run.2 = network w ++ [sent]
  /\ navigations run.2 = navigations w
  /\ user run.2 = user w
  /\ Register.isLoading run.1.2 = false
  /\ run.1.1 = Ok tt
  /\ Register.errors_form run.1.2 = JStr "Username already registered".
Proof.
  apply (register_form_message_by_status Samples.carol
           (Examples.fresh ∅ (Examples.always Examples.taken))
           Examples.taken); [reflexivity..|discriminate].
Defined.
